(** * EmojiInput: the event handlers of the emoji-aware editable field

    Shallow embedding of
    [packages/emoji-input/src/components/emoji-input/EmojiInput.tsx].

    The component is a set of event handlers closed over its props, its React
    state and three refs ([editorRef], [shouldDeleteOneMoreBackwards],
    [shouldDeleteOneMoreForwards]).  Each handler is embedded as a function
    from the component's state to its new state, together with the ordered
    trace of every call the handler makes (event methods, codec functions,
    surface mutations, host callbacks).

    The helpers imported from [../../utils/*] and the browser's editing
    commands are not part of the embedded file: they form the [Platform]
    interface below and every general theorem holds for all of its
    implementations. *)

From Stdlib Require Import List String Ascii Bool PeanoNat NArith Lia.
Import ListNotations.

Local Open Scope N_scope.
Local Open Scope list_scope.

(** ** JavaScript strings

    A JS string is a sequence of UTF-16 code units. *)

Definition JSString := list N.

Definition js (s : string) : JSString :=
  map N_of_ascii (list_ascii_of_string s).

Fixpoint streq (a b : JSString) : bool :=
  match a, b with
  | [], [] => true
  | x :: a', y :: b' => N.eqb x y && streq a' b'
  | _, _ => false
  end.

Fixpoint startsWith (needle s : JSString) : bool :=
  match needle, s with
  | [], _ => true
  | x :: n', y :: s' => N.eqb x y && startsWith n' s'
  | _ :: _, [] => false
  end.

(** [s.includes(needle)] *)
Fixpoint includes (needle s : JSString) : bool :=
  startsWith needle s ||
  match s with
  | [] => false
  | _ :: s' => includes needle s'
  end.

(** Truthiness of a string: [''] is falsy. *)
Definition truthy (s : JSString) : bool :=
  match s with
  | [] => false
  | _ :: _ => true
  end.

Definition isSome {A} (o : option A) : bool :=
  match o with
  | Some _ => true
  | None => false
  end.

(** ['\n'] and ['\u200C'] (zero-width non-joiner). *)
Definition newline : JSString := [10].
Definition ZWNJ : JSString := [8204].

(** The char code of the zero-width space that bounds an emoji element:
    the literal [8203] of [handleKeyDown]. *)
Definition sentinelCode : N := 8203.

(** ** Events *)

(** A DOM event: its handler-specific payload and the two flags the handlers
    set through [preventDefault()] and [stopPropagation()]. *)
Record Event (P : Type) : Type := mkEvent {
  payload : P;
  defaultPrevented : bool;
  propagationStopped : bool
}.
Arguments mkEvent {P} _ _ _.
Arguments payload {P} _.
Arguments defaultPrevented {P} _.
Arguments propagationStopped {P} _.

(** [new Event(...)]: nothing prevented, nothing stopped. *)
Definition newEvent {P} (p : P) : Event P := mkEvent p false false.

(** [event.key] *)
Record KeyboardPayload := { key : JSString }.
(** [event.nativeEvent] of a before-input event: [{ data, type }]. *)
Record InputPayload := { data : option JSString; type : JSString }.
(** [event.clipboardData.getData('text/plain')] *)
Record ClipboardPayload := { clipboardText : JSString }.
(** [event.dataTransfer?.getData('text')] *)
Record DragPayload := { dataTransferText : option JSString }.

Definition KeyboardEvent := Event KeyboardPayload.
Definition InputEvent := Event InputPayload.
Definition ClipboardEvent := Event ClipboardPayload.
Definition DragEvent := Event DragPayload.
Definition ChangeEvent := Event unit.

(** What a host callback does to the event it is handed. *)
Record HostReaction := {
  callsPreventDefault : bool;
  callsStopPropagation : bool
}.

Definition react {P} (r : HostReaction) (e : Event P) : Event P :=
  mkEvent (payload e)
          (defaultPrevented e || callsPreventDefault r)
          (propagationStopped e || callsStopPropagation r).

(** ** Props *)

Record EmojiInputProps := {
  isDisabled : bool;
  (** [None] when [typeof onInput !== 'function'] *)
  onInput : option (JSString -> HostReaction);
  onKeyDown : option (KeyboardEvent -> HostReaction);
  onPopupVisibilityChange : option (bool -> unit);
  value : JSString
}.

(** ** The trace of calls *)

Inductive Command :=
| forwardDelete
| insertLineBreak
| insertHTML (text : JSString).

Inductive Effect :=
| EPreventDefault
| EStopPropagation
| EConvertEmojisToUnicode (text : JSString)
| EEscapeHTML (text : JSString)
| EConvertTextToHTML (text : JSString)
| EConvertHTMLToText (html : JSString)
| ESaveSelection (shouldIgnoreEmptyTextNodes : bool)
| ESetInnerHTML (html : JSString)
| ERestoreSelection
| EInsertTextAtCursorPosition (text : JSString) (shouldUseSavedSelection : bool)
| EReplaceText (searchText pasteText : JSString)
| EInsertInvisibleCursorMarker
| EExecCommand (c : Command)
| EDispatchInput
| ESetPlainTextValue (text : JSString)
| ESetIsPopupVisible (isVisible : bool)
| EOnInput (originalText : JSString)
| EOnKeyDown
| EOnPopupVisibilityChange (isVisible : bool).

(** The calls that run a conversion of the codec. *)
Definition isCodecCall (e : Effect) : bool :=
  match e with
  | EConvertEmojisToUnicode _ | EEscapeHTML _
  | EConvertTextToHTML _ | EConvertHTMLToText _ => true
  | _ => false
  end.

(** The calls that change the displayed content. *)
Definition isContentMutation (e : Effect) : bool :=
  match e with
  | ESetInnerHTML _ | EInsertTextAtCursorPosition _ _ | EReplaceText _ _
  | EInsertInvisibleCursorMarker | EExecCommand _ => true
  | _ => false
  end.

(** The calls of the host's [onInput] listener. *)
Definition isHostNotification (e : Effect) : bool :=
  match e with
  | EOnInput _ => true
  | _ => false
  end.

Definition isDispatchInput (e : Effect) : bool :=
  match e with
  | EDispatchInput => true
  | _ => false
  end.

Definition isSetPlainTextValue (e : Effect) : bool :=
  match e with
  | ESetPlainTextValue _ => true
  | _ => false
  end.

Definition count (p : Effect -> bool) (t : list Effect) : nat :=
  List.length (filter p t).

(** ** The platform

    Everything the handlers call that lives outside the embedded file: the
    editable element ([Dom], with its [innerHTML] getter and setter), the
    codec of [utils/emoji] and [utils/text], the selection helpers of
    [utils/selection], the mutators of [utils/insert] and
    [document.execCommand]. *)
Class Platform := {
  Dom : Type;
  innerHTML : Dom -> JSString;
  setInnerHTML : JSString -> Dom -> Dom;
  convertEmojisToUnicode : JSString -> JSString;
  escapeHTML : JSString -> JSString;
  convertTextToHTML : JSString -> JSString;
  convertHTMLToText : JSString -> JSString;
  saveSelection : bool -> Dom -> Dom;
  restoreSelection : Dom -> Dom;
  insertTextAtCursorPosition : JSString -> bool -> Dom -> Dom;
  replaceText : JSString -> JSString -> Dom -> Dom;
  insertInvisibleCursorMarker : Dom -> Dom;
  execCommand : Command -> Dom -> Dom;
  getCharCodeThatWillBeDeleted : KeyboardEvent -> option Dom -> option N
}.

Section EmojiInput.

Context `{PF : Platform}.

(** ** Component state *)

Record World := mkWorld {
  (** [editorRef.current]; [None] while the element is not mounted *)
  editorRef : option Dom;
  shouldDeleteOneMoreBackwards : bool;
  shouldDeleteOneMoreForwards : bool;
  plainTextValue : JSString;
  (** the state as the handlers of the current render closed over it *)
  isPopupVisible : bool
}.

(** [useRef(null)], [useRef(false)], [useState(value)], [useState(false)]. *)
Definition initialWorld (props : EmojiInputProps) : World :=
  mkWorld None false false (value props) false.

Definition set_editorRef (d : option Dom) (w : World) : World :=
  mkWorld d (shouldDeleteOneMoreBackwards w) (shouldDeleteOneMoreForwards w)
          (plainTextValue w) (isPopupVisible w).

Definition set_shouldDeleteOneMoreBackwards (b : bool) (w : World) : World :=
  mkWorld (editorRef w) b (shouldDeleteOneMoreForwards w)
          (plainTextValue w) (isPopupVisible w).

Definition set_shouldDeleteOneMoreForwards (b : bool) (w : World) : World :=
  mkWorld (editorRef w) (shouldDeleteOneMoreBackwards w) b
          (plainTextValue w) (isPopupVisible w).

Definition set_plainTextValue (t : JSString) (w : World) : World :=
  mkWorld (editorRef w) (shouldDeleteOneMoreBackwards w)
          (shouldDeleteOneMoreForwards w) t (isPopupVisible w).

Definition set_isPopupVisible (b : bool) (w : World) : World :=
  mkWorld (editorRef w) (shouldDeleteOneMoreBackwards w)
          (shouldDeleteOneMoreForwards w) (plainTextValue w) b.

(** ** Handlers as state transformers with a trace *)

Definition M (A : Type) : Type := World -> A * World * list Effect.

Definition ret {A} (a : A) : M A := fun w => (a, w, []).

Definition bind {A B} (m : M A) (k : A -> M B) : M B :=
  fun w =>
    let '(a, w1, t1) := m w in
    let '(b, w2, t2) := k a w1 in
    (b, w2, t1 ++ t2).

Notation "x <- m ;; k" := (bind m (fun x => k))
  (at level 61, m at next level, right associativity).
Notation "m ;;; k" := (bind m (fun _ => k))
  (at level 61, right associativity).

Definition tell (e : Effect) : M unit := fun w => (tt, w, [e]).
Definition get : M World := fun w => (w, w, []).
Definition modify (f : World -> World) : M unit := fun w => (tt, f w, []).

(** A call that mutates the editable element, where one is mounted. *)
Definition onEditor (f : Dom -> Dom) : M unit :=
  modify (fun w => set_editorRef (option_map f (editorRef w)) w).

Definition result {A} (r : A * World * list Effect) : A := fst (fst r).
Definition world {A} (r : A * World * list Effect) : World := snd (fst r).
Definition trace {A} (r : A * World * list Effect) : list Effect := snd r.

(** [event.preventDefault()] and [event.stopPropagation()] *)
Definition preventDefault {P} (e : Event P) : M (Event P) :=
  tell EPreventDefault ;;;
  ret (mkEvent (payload e) true (propagationStopped e)).

Definition stopPropagation {P} (e : Event P) : M (Event P) :=
  tell EStopPropagation ;;;
  ret (mkEvent (payload e) (defaultPrevented e) true).

Variable props : EmojiInputProps.

(** [handleUpdateHTML] *)
Definition handleUpdateHTML (html : JSString) : M unit :=
  w <- get ;;
  match editorRef w with
  | None => ret tt
  | Some editor =>
      tell (EConvertEmojisToUnicode html) ;;;
      let newInnerHTML := convertEmojisToUnicode html in
      tell (EConvertTextToHTML newInnerHTML) ;;;
      let newInnerHTML := convertTextToHTML newInnerHTML in
      if negb (streq newInnerHTML (innerHTML editor)) then
        tell (ESaveSelection true) ;;;
        onEditor (saveSelection true) ;;;
        tell (ESetInnerHTML newInnerHTML) ;;;
        onEditor (setInnerHTML newInnerHTML) ;;;
        tell ERestoreSelection ;;;
        onEditor restoreSelection
      else ret tt
  end.

(** [handleInput] *)
Definition handleInput (event : ChangeEvent) : M ChangeEvent :=
  w <- get ;;
  match editorRef w with
  | None => ret event
  | Some editor =>
      event <- (if isDisabled props then
                  event <- stopPropagation event ;;
                  preventDefault event
                else ret event) ;;
      if shouldDeleteOneMoreBackwards w then
        modify (set_shouldDeleteOneMoreBackwards false) ;;;
        modify (set_shouldDeleteOneMoreForwards false) ;;;
        event <- preventDefault event ;;
        event <- stopPropagation event ;;
        tell EInsertInvisibleCursorMarker ;;;
        onEditor insertInvisibleCursorMarker ;;;
        ret event
      else if shouldDeleteOneMoreForwards w then
        modify (set_shouldDeleteOneMoreBackwards false) ;;;
        modify (set_shouldDeleteOneMoreForwards false) ;;;
        event <- preventDefault event ;;
        event <- stopPropagation event ;;
        tell (EExecCommand forwardDelete) ;;;
        onEditor (execCommand forwardDelete) ;;;
        ret event
      else
        handleUpdateHTML (innerHTML editor) ;;;
        w' <- get ;;
        let html := match editorRef w' with
                    | Some editor => innerHTML editor
                    | None => []
                    end in
        tell (EConvertHTMLToText html) ;;;
        let text := convertHTMLToText html in
        tell (ESetPlainTextValue text) ;;;
        modify (set_plainTextValue text) ;;;
        match onInput props with
        | Some listener =>
            tell (EOnInput text) ;;;
            ret (react (listener text) event)
        | None => ret event
        end
  end.

(** [editorRef.current.dispatchEvent(new Event('input', { bubbles: true }))]:
    the element's [onInput] is [handleInput], which runs before
    [dispatchEvent] returns. *)
Definition dispatchInputEvent : M unit :=
  tell EDispatchInput ;;;
  handleInput (newEvent tt) ;;;
  ret tt.

(** [handleBeforeInput] *)
Definition handleBeforeInput (event : InputEvent) : M InputEvent :=
  w <- get ;;
  match editorRef w with
  | None => ret event
  | Some _ =>
      if isDisabled props then
        event <- preventDefault event ;;
        stopPropagation event
      else
        match data (payload event) with
        | Some d =>
            if streq (type (payload event)) (js "textInput")
               && truthy d && includes newline d then
              event <- preventDefault event ;;
              event <- stopPropagation event ;;
              tell (EConvertEmojisToUnicode d) ;;;
              let text := convertEmojisToUnicode d in
              tell (EInsertTextAtCursorPosition text false) ;;;
              onEditor (insertTextAtCursorPosition text false) ;;;
              dispatchInputEvent ;;;
              ret event
            else ret event
        | None => ret event
        end
  end.

(** The three keys of the delete branch of [handleKeyDown]. *)
Definition isDeleteClassKey (k : JSString) : bool :=
  streq k (js "Backspace") || streq k (js "Delete")
  || streq k (js "Unidentified").

(** [handleKeyDown] *)
Definition handleKeyDown (event : KeyboardEvent) : M KeyboardEvent :=
  w <- get ;;
  if isDisabled props then
    event <- preventDefault event ;;
    stopPropagation event
  else if streq (key (payload event)) (js "Enter") && isPopupVisible w then
    preventDefault event
  else
    event <- match onKeyDown props with
             | Some listener =>
                 tell EOnKeyDown ;;;
                 ret (react (listener event) event)
             | None => ret event
             end ;;
    event <- (if streq (key (payload event)) (js "Enter")
                 && negb (propagationStopped event)
                 && isSome (editorRef w) then
                event <- preventDefault event ;;
                tell (EExecCommand insertLineBreak) ;;;
                onEditor (execCommand insertLineBreak) ;;;
                ret event
              else ret event) ;;
    (if isDeleteClassKey (key (payload event)) then
       w' <- get ;;
       let charCodeThatWillBeDeleted :=
         getCharCodeThatWillBeDeleted event (editorRef w') in
       match charCodeThatWillBeDeleted with
       | Some c =>
           if N.eqb c 8203 then
             if streq (key (payload event)) (js "Backspace")
                || streq (key (payload event)) (js "Unidentified") then
               modify (set_shouldDeleteOneMoreBackwards true)
             else
               modify (set_shouldDeleteOneMoreForwards true)
           else ret tt
       | None => ret tt
       end
     else ret tt) ;;;
    ret event.

(** [handlePopupVisibility].  [setIsPopupVisible] schedules the new value for
    the next render: it is recorded in the trace, and the handlers of the
    current render go on reading the value they closed over. *)
Definition handlePopupVisibility (isVisible : bool) : M unit :=
  tell (ESetIsPopupVisible isVisible) ;;;
  w <- get ;;
  (if isSome (editorRef w) && isVisible then
     tell (ESaveSelection false) ;;;
     onEditor (saveSelection false)
   else ret tt) ;;;
  match onPopupVisibilityChange props with
  | Some _ => tell (EOnPopupVisibilityChange isVisible)
  | None => ret tt
  end.

(** The value of the last [setIsPopupVisible] call of a trace, if any. *)
Definition scheduledPopupVisibility (t : list Effect) : option bool :=
  fold_left (fun scheduled e =>
               match e with
               | ESetIsPopupVisible isVisible => Some isVisible
               | _ => scheduled
               end) t None.

(** The render that follows the calls of the trace [t]: [handleKeyDown] is
    created anew ([isPopupVisible] is among the dependencies of its
    [useCallback]) and closes over the value scheduled last. *)
Definition rerender (t : list Effect) (w : World) : World :=
  match scheduledPopupVisibility t with
  | Some isVisible => set_isPopupVisible isVisible w
  | None => w
  end.


(** [handlePaste] *)
Definition handlePaste (event : ClipboardEvent) : M ClipboardEvent :=
  w <- get ;;
  match editorRef w with
  | Some _ =>
      event <- preventDefault event ;;
      if isDisabled props then
        stopPropagation event
      else
        let text := clipboardText (payload event) in
        tell (EConvertEmojisToUnicode text) ;;;
        let text := convertEmojisToUnicode text in
        tell (EEscapeHTML text) ;;;
        let text := escapeHTML text in
        let text := if includes newline text then text ++ ZWNJ else text in
        tell (EExecCommand (insertHTML text)) ;;;
        onEditor (execCommand (insertHTML text)) ;;;
        dispatchInputEvent ;;;
        ret event
  | None => ret event
  end.

(** [handleDrop] *)
Definition handleDrop (event : DragEvent) : M DragEvent :=
  w <- get ;;
  match editorRef w with
  | Some _ =>
      event <- preventDefault event ;;
      if isDisabled props then
        stopPropagation event
      else
        match dataTransferText (payload event) with
        | Some text =>
            if negb (truthy text) then ret event
            else
              tell (EConvertEmojisToUnicode text) ;;;
              let text := convertEmojisToUnicode text in
              tell (EEscapeHTML text) ;;;
              let text := escapeHTML text in
              tell (EExecCommand (insertHTML text)) ;;;
              onEditor (execCommand (insertHTML text)) ;;;
              dispatchInputEvent ;;;
              ret event
        | None => ret event
        end
  | None => ret event
  end.

(** [handlePopupSelect] *)
Definition handlePopupSelect (emoji : JSString) : M unit :=
  w <- get ;;
  match editorRef w with
  | Some _ =>
      tell (EInsertTextAtCursorPosition emoji true) ;;;
      onEditor (insertTextAtCursorPosition emoji true) ;;;
      dispatchInputEvent
  | None => ret tt
  end.

(** [handleInsertTextAtCursorPosition], the [insertTextAtCursorPosition] of
    the component's imperative handle. *)
Definition handleInsertTextAtCursorPosition (text : JSString) : M unit :=
  w <- get ;;
  match editorRef w with
  | Some _ =>
      tell (EInsertTextAtCursorPosition text false) ;;;
      onEditor (insertTextAtCursorPosition text false) ;;;
      dispatchInputEvent
  | None => ret tt
  end.

(** [handleReplaceText], the [replaceText] of the imperative handle. *)
Definition handleReplaceText (searchText pasteText : JSString) : M unit :=
  w <- get ;;
  match editorRef w with
  | Some _ =>
      tell (EReplaceText searchText pasteText) ;;;
      onEditor (replaceText searchText pasteText) ;;;
      dispatchInputEvent
  | None => ret tt
  end.

(** ** Observations on a run *)

(** The keyboard event as the host's [onKeyDown] listener leaves it. *)
Definition afterHostKeyDown (event : KeyboardEvent) : KeyboardEvent :=
  match onKeyDown props with
  | Some listener => react (listener event) event
  | None => event
  end.

(** Whether [getCharCodeThatWillBeDeleted] reports the sentinel's code. *)
Definition deletesSentinel (event : KeyboardEvent) (w : World) : bool :=
  match getCharCodeThatWillBeDeleted (afterHostKeyDown event)
          (editorRef w) with
  | Some c => c =? sentinelCode
  | None => false
  end.

(** The events a disabled field swallows before it returns. *)
Definition suppression : list Effect :=
  if isDisabled props then [EStopPropagation; EPreventDefault] else [].

(** The effects of a run tell the host once, and with the plain text the
    field now holds, which is the one derived from the displayed markup. *)
Definition notifiesHostOnce {A} (r : A * World * list Effect) : Prop :=
  filter isHostNotification (trace r) = [EOnInput (plainTextValue (world r))]
  /\ exists editor,
       editorRef (world r) = Some editor /\
       plainTextValue (world r) = convertHTMLToText (innerHTML editor).


End EmojiInput.

Arguments World {PF}.
Arguments M {PF} A.
Arguments isDeleteClassKey : simpl never.

(** ** The codec of the specification

    [utils/emoji] and [utils/text] are not among the embedded sources.  The
    definitions of this module follow section 4.1 of the specification and are used
    wherever a statement speaks about what escaping achieves. *)
Module Codec.

(** Modelled from the spec: [escapeHTML] of [utils/emoji] is missing.  section 4.1:
    "escapes characters that would be misinterpreted as structural markup",
    "unescaped angle-bracket-like sequences in user-typed text are escaped
    before being treated as structural markup".  ['<'] becomes [&lt;] and
    ['>'] becomes [&gt;]. *)
Fixpoint escapeHTML (text : JSString) : JSString :=
  match text with
  | [] => []
  | c :: rest =>
      (if c =? 60 then js "&lt;"
       else if c =? 62 then js "&gt;"
       else [c]) ++ escapeHTML rest
  end.

(** Modelled from the spec: the markup tree of section 3 is missing from the
    sources.  A fragment is a sequence of text runs and of element tags; a tag
    starts at ['<'] and ends at the next ['>']. *)
Inductive MarkupNode :=
| TextRun (content : JSString)
| ElementTag (name : JSString).

(** Modelled from the spec: the character references a text run of the
    surface resolves ([&lt;], [&gt;], [&amp;]); the surface's parser is
    missing from the sources. *)
Fixpoint decodeEntities (s : JSString) : JSString :=
  match s with
  | [] => []
  | c :: r =>
      if c =? 38 then
        match r with
        | a :: b :: d :: r3 =>
            if (a =? 108) && (b =? 116) && (d =? 59) then
              60 :: decodeEntities r3
            else if (a =? 103) && (b =? 116) && (d =? 59) then
              62 :: decodeEntities r3
            else
              match r3 with
              | e :: r4 =>
                  if (a =? 97) && (b =? 109) && (d =? 112) && (e =? 59) then
                    38 :: decodeEntities r4
                  else c :: decodeEntities r
              | [] => c :: decodeEntities r
              end
        | _ => c :: decodeEntities r
        end
      else c :: decodeEntities r
  end.

Definition flushText (acc : JSString) : list MarkupNode :=
  match acc with
  | [] => []
  | _ :: _ => [TextRun (decodeEntities (rev acc))]
  end.

(** Modelled from the spec: how the surface reads a fragment handed to the
    native edit command of section 1; [acc] holds the code units of the current text
    run or tag, most recent first. *)
Fixpoint parseMarkup (inTag : bool) (acc : JSString) (html : JSString)
  : list MarkupNode :=
  match html with
  | [] => if inTag then [TextRun (60 :: rev acc)] else flushText acc
  | c :: rest =>
      if inTag then
        if c =? 62 then ElementTag (rev acc) :: parseMarkup false [] rest
        else parseMarkup true (c :: acc) rest
      else
        if c =? 60 then flushText acc ++ parseMarkup true [] rest
        else parseMarkup false (c :: acc) rest
  end.


(** Modelled from the spec: [toPlainText] of section 4.1, "inverse traversal that
    concatenates text-run contents"; a line-break element reads as a newline
    and no other element of the fragments used here carries text. *)
Fixpoint toPlainText (nodes : list MarkupNode) : JSString :=
  match nodes with
  | [] => []
  | TextRun content :: rest => content ++ toPlainText rest
  | ElementTag name :: rest =>
      (if streq name (js "br") then newline else []) ++ toPlainText rest
  end.

Definition convertHTMLToText (html : JSString) : JSString :=
  toPlainText (parseMarkup false [] html).

End Codec.

(** ** A reference surface

    The simplest editable surface the handlers can run on: the element is its
    serialized content and the caret stays at the end of it.  The codec is
    the one of the specification, with no shortname dictionary loaded (section 4.5:
    "unresolved shortnames simply remain unconverted").  It serves to run the
    handlers on concrete inputs. *)
Module Reference.

(** [replaceText] of section 4.3 on the serialized content: the first occurrence of
    [searchText] is replaced by [pasteText]. *)
Fixpoint replaceFirst (searchText pasteText s : JSString) : JSString :=
  if startsWith searchText s then pasteText ++ skipn (List.length searchText) s
  else match s with
       | [] => []
       | c :: rest => c :: replaceFirst searchText pasteText rest
       end.

Definition execCommandAtEnd (c : Command) (d : JSString) : JSString :=
  match c with
  | forwardDelete => d
  | insertLineBreak => d ++ js "<br>"
  | insertHTML text => d ++ text
  end.

(** With the caret at the end, backspace removes the last code unit and
    forward-delete finds nothing to remove. *)
Definition charCodeBeforeCaret
  (event : KeyboardEvent) (d : option JSString) : option N :=
  if streq (key (payload event)) (js "Delete") then None
  else match d with
       | Some content => last (map Some content) None
       | None => None
       end.

(** Modelled from the spec: the helpers of [utils/] and the browser's editing
    commands are missing from the sources.  Insertion follows section 4.3
    ("inserts the escaped/emoji-converted form of [text] at the collapsed
    cursor"), the codec section 4.1; the selection helpers have nothing to
    keep, the caret being always at the end. *)
#[export] Instance platform : Platform := {|
  Dom := JSString;
  innerHTML := fun d => d;
  setInnerHTML := fun html _ => html;
  convertEmojisToUnicode := fun text => text;
  escapeHTML := Codec.escapeHTML;
  convertTextToHTML := fun text => text;
  convertHTMLToText := Codec.convertHTMLToText;
  saveSelection := fun _ d => d;
  restoreSelection := fun d => d;
  insertTextAtCursorPosition := fun text _ d => d ++ Codec.escapeHTML text;
  replaceText := replaceFirst;
  insertInvisibleCursorMarker := fun d => removelast d;
  execCommand := execCommandAtEnd;
  getCharCodeThatWillBeDeleted := charCodeBeforeCaret
|}.

Definition enabledProps : EmojiInputProps := {|
  isDisabled := false;
  onInput := Some (fun _ => {| callsPreventDefault := false;
                               callsStopPropagation := false |});
  onKeyDown := None;
  onPopupVisibilityChange := None;
  value := []
|}.

(** A host whose [onKeyDown] listener prevents the default action. *)
Definition interceptingProps : EmojiInputProps := {|
  isDisabled := false;
  onInput := Some (fun _ => {| callsPreventDefault := false;
                               callsStopPropagation := false |});
  onKeyDown := Some (fun _ => {| callsPreventDefault := true;
                                 callsStopPropagation := false |});
  onPopupVisibilityChange := None;
  value := []
|}.

Definition disabledProps : EmojiInputProps := {|
  isDisabled := true;
  onInput := Some (fun _ => {| callsPreventDefault := false;
                               callsStopPropagation := false |});
  onKeyDown := None;
  onPopupVisibilityChange := None;
  value := []
|}.

(** A mounted field showing [content], nothing pending, popup closed. *)
Definition mounted (content : JSString) : World :=
  mkWorld (Some content) false false (Codec.convertHTMLToText content) false.

Definition keydown (k : string) : KeyboardEvent :=
  newEvent {| key := js k |}.

Definition paste (text : string) : ClipboardEvent :=
  newEvent {| clipboardText := js text |}.

(** A field showing an [a] followed by the zero-width sentinel. *)
Definition atSentinel : World := mounted (js "a" ++ [sentinelCode]).

(** The same field with a backward delete pending. *)
Definition pendingBackward : World :=
  mkWorld (Some (js "a" ++ [sentinelCode])) true false
          (js "a" ++ [sentinelCode]) false.

(** A component whose element is not mounted while a delete is pending. *)
Definition unmountedPending : World := mkWorld None true false [] false.

Definition textInput (text : JSString) : InputEvent :=
  newEvent {| data := Some text; type := js "textInput" |}.

(** The component before its element is mounted. *)
Definition unmounted (props : EmojiInputProps) : World := initialWorld props.

End Reference.

(** * The rest of the component

    The handlers and effects of [EmojiInput.tsx] that look after the drop of
    text, the popup, the focus, the [value] prop, the prefix element and the
    placeholder. *)

(** [s.replace(searchValue, replaceValue)] with a string pattern: only the
    first occurrence is replaced (the replacement [' '] used in the component
    holds no [$] pattern). *)
Fixpoint replace (searchValue replaceValue s : JSString) : JSString :=
  if startsWith searchValue s
  then replaceValue ++ skipn (List.length searchValue) s
  else match s with
       | [] => []
       | c :: rest => c :: replace searchValue replaceValue rest
       end.

(** Truthiness of an optional string: [undefined] and [''] are falsy. *)
Definition truthyOpt (s : option JSString) : bool :=
  match s with
  | Some t => truthy t
  | None => false
  end.

(** The props the handlers above do not read. *)
Record EmojiInputViewProps := {
  (** [typeof onBlur === 'function'] *)
  onBlur : bool;
  onFocus : bool;
  onPrefixElementRemove : bool;
  prefixElement : option JSString;
  shouldHidePlaceholderOnFocus : bool
}.

(** The React state and refs the handlers above do not read. *)
Record ViewState := mkView {
  hasFocus : bool;
  isPrefixAnimationFinished : bool;
  prefixElementWidth : option N;
  hasPrefixRendered : bool;
  hasPrefixChanged : bool
}.


(** The host callbacks of the focus handlers and of the prefix effect. *)
Inductive HostCall :=
| COnFocus
| COnBlur
| COnPrefixElementRemove.

(** [handleFocus] *)
Definition handleFocus
  (props : EmojiInputProps) (vp : EmojiInputViewProps) (v : ViewState)
  : ViewState * list HostCall :=
  (mkView true (isPrefixAnimationFinished v) (prefixElementWidth v)
          (hasPrefixRendered v) (hasPrefixChanged v),
   if onFocus vp && negb (isDisabled props) then [COnFocus] else []).

(** [handleBlur] *)
Definition handleBlur
  (props : EmojiInputProps) (vp : EmojiInputViewProps) (v : ViewState)
  : ViewState * list HostCall :=
  (mkView false (isPrefixAnimationFinished v) (prefixElementWidth v)
          (hasPrefixRendered v) (hasPrefixChanged v),
   if onBlur vp && negb (isDisabled props) then [COnBlur] else []).

(** The effect on [prefixElement] that marks a change of the prefix:
    [typeof prefixElement === 'string'] also holds for ['']. *)
Definition prefixChangedEffect
  (vp : EmojiInputViewProps) (v : ViewState) : ViewState :=
  match prefixElement vp with
  | Some _ =>
      mkView (hasFocus v) (isPrefixAnimationFinished v)
             (prefixElementWidth v) (hasPrefixRendered v) true
  | None => v
  end.

(** The effect on [prefixElement] that restarts the prefix animation. *)
Definition prefixAnimationEffect
  (vp : EmojiInputViewProps) (v : ViewState) : ViewState :=
  if truthyOpt (prefixElement vp) then
    mkView (hasFocus v) false (prefixElementWidth v)
           (hasPrefixRendered v) (hasPrefixChanged v)
  else v.

(** An element of the page as [handlePreventLoseFocus] sees it. *)
#[warnings="-register-all"]
Inductive Element :=
| mkElement (classList : list JSString) (parentElement : option Element).

Definition classList (e : Element) : list JSString :=
  match e with mkElement c _ => c end.

Definition parentElement (e : Element) : option Element :=
  match e with mkElement _ p => p end.

(** [element.classList.contains(token)] *)
Definition contains (token : JSString) (e : Element) : bool :=
  existsb (streq token) (classList e).

(** [handlePreventLoseFocus], on a mousedown whose target is the payload. *)
Definition handlePreventLoseFocus (event : Event Element) : Event Element :=
  let element := payload event in
  let token := js "prevent-lose-focus" in
  if contains token element
     || match parentElement element with
        | Some parent => contains token parent
        | None => false
        end
     || match parentElement element with
        | Some parent =>
            match parentElement parent with
            | Some grandparent => contains token grandparent
            | None => false
            end
        | None => false
        end
  then mkEvent (payload event) true true
  else event.

(** The element, its parent, the parent of that, and so on. *)
Fixpoint ancestors (e : Element) : list Element :=
  match e with
  | mkElement _ p =>
      e :: match p with
           | Some q => ancestors q
           | None => []
           end
  end.

Section Lifecycle.

Context `{PF : Platform}.

Variable props : EmojiInputProps.
Variable vp : EmojiInputViewProps.

Notation "x <- m ;; k" := (bind m (fun x => k))
  (at level 61, m at next level, right associativity).
Notation "m ;;; k" := (bind m (fun _ => k))
  (at level 61, right associativity).

(** The effect that follows the [value] prop. *)
Definition valueEffect : M unit :=
  w <- get ;;
  if negb (streq (value props) (plainTextValue w)) then
    tell (ESetPlainTextValue (value props)) ;;;
    modify (set_plainTextValue (value props)) ;;;
    handleUpdateHTML (value props)
  else ret tt.

(** The effect that renders the prefix element into the field. *)
Definition prefixInsertEffect (v : ViewState) : M ViewState :=
  w <- get ;;
  match editorRef w, prefixElement vp with
  | Some _, Some prefix =>
      if truthy prefix then
        tell (EConvertEmojisToUnicode prefix) ;;;
        let text := convertEmojisToUnicode prefix in
        tell (EInsertTextAtCursorPosition text false) ;;;
        onEditor (insertTextAtCursorPosition text false) ;;;
        handleUpdateHTML prefix ;;;
        ret (mkView (hasFocus v) (isPrefixAnimationFinished v)
                    (prefixElementWidth v) true (hasPrefixChanged v))
      else ret v
  | _, _ => ret v
  end.

(** ['&nbsp;'] and [' ']. *)
Definition nbsp : JSString := js "&nbsp;".
Definition space : JSString := js " ".

(** [convertHTMLToText(editorRef.current?.innerHTML ?? '')
      .replace('&nbsp;', ' ')] *)
Definition convertedText (w : World) : JSString :=
  replace nbsp space
    (convertHTMLToText match editorRef w with
                       | Some editor => innerHTML editor
                       | None => []
                       end).

(** [prefixElement && prefixElement.replace('&nbsp;', ' ')] *)
Definition convertedPrefix : option JSString :=
  match prefixElement vp with
  | Some prefix => if truthy prefix then Some (replace nbsp space prefix)
                   else Some prefix
  | None => None
  end.

(** The test of the prefix effect: the field still holds the prefix, either
    alone or somewhere inside a longer text. *)
Definition prefixStillThere (w : World) : bool :=
  match convertedPrefix with
  | Some prefix =>
      (truthy prefix
       && includes prefix (convertedText w)
       && Nat.ltb (List.length prefix) (List.length (convertedText w)))
      || streq prefix (convertedText w)
  | None => false
  end.

(** The effect that tells the host when the prefix has been removed from the
    field. *)
Definition prefixRemovalEffect
  (w : World) (v : ViewState) : ViewState * list HostCall :=
  if negb (onPrefixElementRemove vp) then (v, [])
  else if negb (hasPrefixRendered v) then (v, [])
  else if prefixStillThere w then (v, [])
  else if hasPrefixChanged v then
    (mkView (hasFocus v) (isPrefixAnimationFinished v)
            (prefixElementWidth v) (hasPrefixRendered v) false, [])
  else
    (mkView (hasFocus v) (isPrefixAnimationFinished v)
            (prefixElementWidth v) false (hasPrefixChanged v),
     [COnPrefixElementRemove]).

(** [prefixElement && convertTextToHTML(prefixElement)
      === editorRef.current?.innerHTML] *)
Definition isJustPrefixElement (w : World) : bool :=
  match prefixElement vp with
  | Some prefix =>
      truthy prefix
      && match editorRef w with
         | Some editor => streq (convertTextToHTML prefix) (innerHTML editor)
         | None => false
         end
  | None => false
  end.


(** [prefixElementWidth && prefixElementWidth > 0] *)
Definition positiveWidth (width : option N) : bool :=
  match width with
  | Some n => negb (n =? 0) && (0 <? n)
  | None => false
  end.

(** [shouldShowPlaceholder], read for its truthiness as the render does. *)
Definition shouldShowPlaceholder (w : World) (v : ViewState) : bool :=
  if negb (isPrefixAnimationFinished v) then false
  else
    let shouldRenderPlaceholder :=
      (truthyOpt (prefixElement vp) && negb (truthy (plainTextValue w)))
      || (if truthyOpt (prefixElement vp)
          then positiveWidth (prefixElementWidth v)
          else true) in
    let blank := negb (truthy (plainTextValue w)) || isJustPrefixElement w in
    if blank && shouldHidePlaceholderOnFocus vp && negb (hasFocus v)
    then shouldRenderPlaceholder
    else if blank && negb (shouldHidePlaceholderOnFocus vp)
    then shouldRenderPlaceholder
    else if blank && shouldHidePlaceholderOnFocus vp && hasFocus v
    then false
    else false.

(** The test of [handleBeforeInput]: a text input holding a newline. *)
Definition interceptsBeforeInput (event : InputEvent) : bool :=
  match data (payload event) with
  | Some d =>
      streq (type (payload event)) (js "textInput")
      && truthy d && includes newline d
  | None => false
  end.

Definition isOnKeyDown (e : Effect) : bool :=
  match e with
  | EOnKeyDown => true
  | _ => false
  end.

Definition isPreventDefault (e : Effect) : bool :=
  match e with
  | EPreventDefault => true
  | _ => false
  end.

Definition isLineBreak (e : Effect) : bool :=
  match e with
  | EExecCommand insertLineBreak => true
  | _ => false
  end.

Definition isEscapeHTML (e : Effect) : bool :=
  match e with
  | EEscapeHTML _ => true
  | _ => false
  end.

(** ** Sequences of calls *)

(** One call of a handler or of the [value] effect. *)
Inductive Action :=
| AInput (event : ChangeEvent)
| ABeforeInput (event : InputEvent)
| AKeyDown (event : KeyboardEvent)
| APaste (event : ClipboardEvent)
| ADrop (event : DragEvent)
| APopupSelect (emoji : JSString)
| APopupVisibility (isVisible : bool)
| AInsertTextAtCursorPosition (text : JSString)
| AReplaceText (searchText pasteText : JSString)
| AValueEffect.

Definition isKeyDown (a : Action) : bool :=
  match a with
  | AKeyDown _ => true
  | _ => false
  end.

Definition isPopupVisibility (a : Action) : bool :=
  match a with
  | APopupVisibility _ => true
  | _ => false
  end.

Definition perform (a : Action) : M unit :=
  match a with
  | AInput event => handleInput props event ;;; ret tt
  | ABeforeInput event => handleBeforeInput props event ;;; ret tt
  | AKeyDown event => handleKeyDown props event ;;; ret tt
  | APaste event => handlePaste props event ;;; ret tt
  | ADrop event => handleDrop props event ;;; ret tt
  | APopupSelect emoji => handlePopupSelect props emoji
  | APopupVisibility isVisible => handlePopupVisibility props isVisible
  | AInsertTextAtCursorPosition text =>
      handleInsertTextAtCursorPosition props text
  | AReplaceText searchText pasteText =>
      handleReplaceText props searchText pasteText
  | AValueEffect => valueEffect
  end.

Fixpoint performAll (actions : list Action) : M unit :=
  match actions with
  | [] => ret tt
  | a :: rest => perform a ;;; performAll rest
  end.

(** Whether a delete is pending. *)
Definition deletePending (w : World) : bool :=
  shouldDeleteOneMoreBackwards w || shouldDeleteOneMoreForwards w.

(** The markup [handleUpdateHTML] aims at. *)
Definition markupOf (text : JSString) : JSString :=
  convertTextToHTML (convertEmojisToUnicode text).

(** What the field displays; [None] while it is not mounted. *)
Definition displayed (w : World) : option JSString :=
  option_map innerHTML (editorRef w).

End Lifecycle.

(** ** Inputs for concrete runs of the rest of the component *)
Module Fixtures.

(** A host that listens to everything and passes the prefix [@bob ]. *)
Definition viewProps : EmojiInputViewProps := {|
  onBlur := true;
  onFocus := true;
  onPrefixElementRemove := true;
  prefixElement := Some (js "@bob ");
  shouldHidePlaceholderOnFocus := true
|}.

(** The same host without a prefix. *)
Definition plainViewProps : EmojiInputViewProps := {|
  onBlur := true;
  onFocus := true;
  onPrefixElementRemove := true;
  prefixElement := None;
  shouldHidePlaceholderOnFocus := false
|}.

(** The prefix is rendered and its animation has finished. *)
Definition prefixRendered : ViewState := mkView false true None true false.

Definition drop (text : option JSString) : DragEvent :=
  newEvent {| dataTransferText := text |}.

(** A button inside an element marked [prevent-lose-focus]. *)
Definition markedParent : Element :=
  mkElement [js "popup"; js "prevent-lose-focus"] None.

Definition button : Element := mkElement [js "icon"] (Some markedParent).

End Fixtures.

(** * Properties *)

Lemma streq_refl (a : JSString) : streq a a = true.
Proof.
  induction a as [|x a IH]; cbn; [reflexivity|].
  now rewrite N.eqb_refl, IH.
Qed.

Lemma streq_eq (a b : JSString) : streq a b = true <-> a = b.
Proof.
  split.
  - revert b; induction a as [|x a IH]; intros [|y b]; cbn; try discriminate;
      [reflexivity|].
    intros H; apply andb_true_iff in H as [Hx Hr].
    apply N.eqb_eq in Hx; subst; f_equal; now apply IH.
  - intros ->; apply streq_refl.
Qed.

Lemma streq_neq (a b : JSString) : streq a b = false <-> a <> b.
Proof.
  rewrite <- streq_eq; destruct (streq a b); intuition congruence.
Qed.

Lemma isDeleteClassKey_cases (k : JSString) :
  isDeleteClassKey k = true <->
  k = js "Backspace" \/ k = js "Delete" \/ k = js "Unidentified".
Proof.
  unfold isDeleteClassKey; rewrite !orb_true_iff, !streq_eq; tauto.
Qed.

Lemma isDeleteClassKey_not_Enter (k : JSString) :
  isDeleteClassKey k = true -> streq k (js "Enter") = false.
Proof.
  rewrite isDeleteClassKey_cases; intros [-> | [-> | ->]]; reflexivity.
Qed.

Section Properties.

Context `{PF : Platform}.

(** Unfolds a handler into its branches. *)
Ltac run :=
  unfold handleUpdateHTML, handleInput, handleBeforeInput, handleKeyDown,
    handlePaste, handleDrop, handlePopupSelect, handlePopupVisibility,
    handleInsertTextAtCursorPosition, handleReplaceText, dispatchInputEvent,
    handleInput, handleUpdateHTML, preventDefault, stopPropagation, onEditor,
    bind, ret, tell, get, modify, result, world, trace, count in *;
  cbn in *.

(** C3. [handleUpdateHTML] on a mounted field with text [t]: when the markup
    made from [t] is the displayed [innerHTML], the field and the selection
    are left as they are and nothing but the two conversions is called; when
    it differs, the selection is saved, then [innerHTML] is replaced by the
    new markup, then the selection is restored, in this order and with
    nothing in between. *)
Theorem handleUpdateHTML_replaces_only_on_difference
  (w : World) (t : JSString) (editor : Dom) :
  editorRef w = Some editor ->
  let markup := convertTextToHTML (convertEmojisToUnicode t) in
  let r := handleUpdateHTML t w in
  (markup = innerHTML editor ->
     world r = w /\
     count isContentMutation (trace r) = 0%nat /\
     trace r = [EConvertEmojisToUnicode t;
                EConvertTextToHTML (convertEmojisToUnicode t)]) /\
  (markup <> innerHTML editor ->
     editorRef (world r)
     = Some (restoreSelection
               (setInnerHTML markup (saveSelection true editor))) /\
     shouldDeleteOneMoreBackwards (world r)
     = shouldDeleteOneMoreBackwards w /\
     shouldDeleteOneMoreForwards (world r) = shouldDeleteOneMoreForwards w /\
     plainTextValue (world r) = plainTextValue w /\
     isPopupVisible (world r) = isPopupVisible w /\
     trace r = [EConvertEmojisToUnicode t;
                EConvertTextToHTML (convertEmojisToUnicode t);
                ESaveSelection true;
                ESetInnerHTML markup;
                ERestoreSelection]).
Proof.
  intros He markup r; subst markup r.
  destruct w as [ed b f p v]; cbn in He; subst ed.
  split; intros Hm.
  - apply streq_eq in Hm. run. rewrite Hm. cbn. auto.
  - apply streq_neq in Hm. run. rewrite Hm. cbn. auto 10.
Qed.

(** C8. While [editorRef.current] is missing, the display sync, the two
    imperative operations, the input and before-input handlers and the popup
    insertion return at once: the state is unchanged, the event is handed
    back untouched and nothing is called. *)
Theorem missing_surface_is_noop
  (props : EmojiInputProps) (w : World) :
  editorRef w = None ->
  (forall html, handleUpdateHTML html w = (tt, w, [])) /\
  (forall text, handleInsertTextAtCursorPosition props text w = (tt, w, [])) /\
  (forall searchText pasteText,
     handleReplaceText props searchText pasteText w = (tt, w, [])) /\
  (forall event, handleInput props event w = (event, w, [])) /\
  (forall event, handleBeforeInput props event w = (event, w, [])) /\
  (forall emoji, handlePopupSelect props emoji w = (tt, w, [])).
Proof.
  intros He; repeat split; intros; run; rewrite He; reflexivity.
Qed.

(** C5. A paste on a disabled field leaves the component state, and with it
    [plainTextValue], unchanged; no input event is dispatched, [onInput] is
    not called and nothing is inserted: the handler only touches the paste
    event itself. *)
Theorem disabled_paste_changes_nothing
  (props : EmojiInputProps) (w : World) (event : ClipboardEvent) :
  isDisabled props = true ->
  let r := handlePaste props event w in
  world r = w /\
  plainTextValue (world r) = plainTextValue w /\
  count isDispatchInput (trace r) = 0%nat /\
  count isHostNotification (trace r) = 0%nat /\
  count isSetPlainTextValue (trace r) = 0%nat /\
  count isContentMutation (trace r) = 0%nat.
Proof.
  intros Hd r; subst r.
  destruct w as [[ed|] b f p v]; run; rewrite ?Hd; cbn; auto 10.
Qed.

(** Splits on the conditions a handler branches on. *)
Ltac branches :=
  repeat match goal with
         | |- context [match ?c with _ => _ end] =>
             lazymatch c with
             | context [match _ with _ => _ end] => fail
             | _ => destruct c eqn:?
             end; cbn in *
         end.

(** C1 (as amended). On an enabled field: a Backspace or Unidentified keydown
    about to remove the code unit 8203 sets [shouldDeleteOneMoreBackwards]
    and leaves the other flag alone; a Delete keydown about to remove it sets
    [shouldDeleteOneMoreForwards] and leaves the other flag alone; in both
    cases the handler itself does not prevent the default action.  For any
    other code unit and for any other key both flags keep their values.  On
    a disabled field the keydown changes nothing.  Both flags start out
    false. *)
Theorem enabled_keydown_arms_delete_guard
  (props : EmojiInputProps) (w : World) (event : KeyboardEvent) :
  isDisabled props = false ->
  let k := key (payload event) in
  let r := handleKeyDown props event w in
  (k = js "Backspace" \/ k = js "Unidentified" ->
   deletesSentinel props event w = true ->
     shouldDeleteOneMoreBackwards (world r) = true /\
     shouldDeleteOneMoreForwards (world r) = shouldDeleteOneMoreForwards w /\
     defaultPrevented (result r)
       = defaultPrevented (afterHostKeyDown props event) /\
     count (fun e => match e with EPreventDefault => true | _ => false end)
       (trace r) = 0%nat) /\
  (k = js "Delete" ->
   deletesSentinel props event w = true ->
     shouldDeleteOneMoreForwards (world r) = true /\
     shouldDeleteOneMoreBackwards (world r) = shouldDeleteOneMoreBackwards w /\
     defaultPrevented (result r)
       = defaultPrevented (afterHostKeyDown props event) /\
     count (fun e => match e with EPreventDefault => true | _ => false end)
       (trace r) = 0%nat) /\
  (isDeleteClassKey k = false \/ deletesSentinel props event w = false ->
     shouldDeleteOneMoreBackwards (world r) = shouldDeleteOneMoreBackwards w /\
     shouldDeleteOneMoreForwards (world r) = shouldDeleteOneMoreForwards w) /\
  (forall disabled : EmojiInputProps,
     isDisabled disabled = true ->
     world (handleKeyDown disabled event w) = w) /\
  shouldDeleteOneMoreBackwards (initialWorld props) = false /\
  shouldDeleteOneMoreForwards (initialWorld props) = false.
Proof.
  intros Hd k r; subst k r.
  unfold deletesSentinel, afterHostKeyDown, sentinelCode.
  destruct w as [ed b f p v], event as [[k] dp ps]; cbn.
  split; [|split; [|split; [|split; [|split; reflexivity]]]].
  - intros [-> | ->] Hs; destruct (onKeyDown props) eqn:Hl;
      (destruct (getCharCodeThatWillBeDeleted _ ed) as [c|] eqn:Hc;
       [apply N.eqb_eq in Hs; subst c | discriminate]);
      run; rewrite ?Hd, ?Hl; cbn; unfold isDeleteClassKey; cbn;
      rewrite Hc; cbn; auto.
  - intros -> Hs; destruct (onKeyDown props) eqn:Hl;
      (destruct (getCharCodeThatWillBeDeleted _ ed) as [c|] eqn:Hc;
       [apply N.eqb_eq in Hs; subst c | discriminate]);
      run; rewrite ?Hd, ?Hl; cbn; unfold isDeleteClassKey; cbn;
      rewrite Hc; cbn; auto.
  - intros Hor.
    destruct (streq k (js "Enter")) eqn:HEnter.
    + apply streq_eq in HEnter; subst k.
      run; rewrite Hd; cbn.
      branches; auto;
        match goal with
        | H : isDeleteClassKey _ = true |- _ => vm_compute in H; discriminate
        end.
    + run; rewrite Hd; cbn; rewrite ?HEnter; cbn.
      destruct (onKeyDown props); cbn; rewrite ?HEnter; cbn;
        branches; auto;
        destruct Hor as [Hk | Hs]; try congruence;
        repeat match goal with
               | H : ?x = _, Hs : context [?x] |- _ => rewrite H in Hs
               end; congruence.
  - intros disabled Hdis; run; rewrite Hdis; reflexivity.
Qed.

(** C2 (as amended). An input event handled on a mounted field while a
    delete is pending: nothing is converted, [plainTextValue] is not set and
    [onInput] is not called; both flags are cleared; and the one mutation
    made is [insertInvisibleCursorMarker()] when the backward flag is set,
    [execCommand('forwardDelete')] otherwise.  So after every run of
    [handleInput] on a mounted field both flags are false. *)
Theorem input_consumes_pending_delete
  (props : EmojiInputProps) (w : World) (event : ChangeEvent) (editor : Dom) :
  editorRef w = Some editor ->
  let r := handleInput props event w in
  (shouldDeleteOneMoreBackwards (world r) = false /\
   shouldDeleteOneMoreForwards (world r) = false) /\
  (shouldDeleteOneMoreBackwards w = true ->
     trace r = suppression props ++
               [EPreventDefault; EStopPropagation;
                EInsertInvisibleCursorMarker] /\
     editorRef (world r) = Some (insertInvisibleCursorMarker editor)) /\
  (shouldDeleteOneMoreBackwards w = false ->
   shouldDeleteOneMoreForwards w = true ->
     trace r = suppression props ++
               [EPreventDefault; EStopPropagation;
                EExecCommand forwardDelete] /\
     editorRef (world r) = Some (execCommand forwardDelete editor)) /\
  (shouldDeleteOneMoreBackwards w || shouldDeleteOneMoreForwards w = true ->
     plainTextValue (world r) = plainTextValue w /\
     count isCodecCall (trace r) = 0%nat /\
     count isSetPlainTextValue (trace r) = 0%nat /\
     count isHostNotification (trace r) = 0%nat /\
     count isContentMutation (trace r) = 1%nat).
Proof.
  intros He r; subst r; unfold suppression.
  destruct w as [ed b f p v]; cbn in He; subst ed.
  split; [|split; [|split]].
  - run; branches; auto.
  - cbn; intros ->; run; branches; auto.
  - cbn; intros -> ->; run; branches; auto.
  - cbn; intros Hp; run; destruct b, f; try discriminate; branches; auto 10.
Qed.

(** C4 (as amended). On a disabled, mounted field a before-input, keydown,
    paste or drop event has its default prevented and its propagation
    stopped, and the handler returns without any other call and without
    changing the state (a keydown also when the field is not mounted).  An
    input event has its propagation stopped and its default prevented before
    anything else is called. *)
Theorem disabled_events_are_suppressed
  (props : EmojiInputProps) (w : World) (editor : Dom) :
  isDisabled props = true ->
  editorRef w = Some editor ->
  (forall event,
     handleBeforeInput props event w
     = (mkEvent (payload event) true true, w,
        [EPreventDefault; EStopPropagation])) /\
  (forall event w',
     handleKeyDown props event w'
     = (mkEvent (payload event) true true, w',
        [EPreventDefault; EStopPropagation])) /\
  (forall event,
     handlePaste props event w
     = (mkEvent (payload event) true true, w,
        [EPreventDefault; EStopPropagation])) /\
  (forall event,
     handleDrop props event w
     = (mkEvent (payload event) true true, w,
        [EPreventDefault; EStopPropagation])) /\
  (forall event,
     let r := handleInput props event w in
     defaultPrevented (result r) = true /\
     propagationStopped (result r) = true /\
     exists rest, trace r = EStopPropagation :: EPreventDefault :: rest).
Proof.
  intros Hd He.
  destruct w as [ed b f p v]; cbn in He; subst ed.
  repeat split; intros; run; rewrite ?Hd; cbn; branches; eauto.
Qed.

(** C7 (as amended). On a mounted field every call of the imperative
    [insertTextAtCursorPosition] and [replaceText] and every paste on an
    enabled field dispatches exactly one input event.  When the field is
    enabled, no delete is pending and the host passed an [onInput] listener,
    that listener is called exactly once, with the plain text derived from
    the content the field then displays. *)
Theorem one_input_event_per_edit
  (props : EmojiInputProps) (w : World) (editor : Dom) :
  editorRef w = Some editor ->
  (forall text,
     count isDispatchInput
       (trace (handleInsertTextAtCursorPosition props text w)) = 1%nat) /\
  (forall searchText pasteText,
     count isDispatchInput
       (trace (handleReplaceText props searchText pasteText w)) = 1%nat) /\
  (isDisabled props = false ->
   forall event,
     count isDispatchInput (trace (handlePaste props event w)) = 1%nat) /\
  (isDisabled props = false ->
   shouldDeleteOneMoreBackwards w = false ->
   shouldDeleteOneMoreForwards w = false ->
   forall listener, onInput props = Some listener ->
     (forall text,
        notifiesHostOnce (handleInsertTextAtCursorPosition props text w)) /\
     (forall searchText pasteText,
        notifiesHostOnce (handleReplaceText props searchText pasteText w)) /\
     (forall event, notifiesHostOnce (handlePaste props event w))).
Proof.
  intros He.
  destruct w as [ed b f p v]; cbn in He; subst ed.
  split; [|split; [|split]].
  - intros; run; branches; auto.
  - intros; run; branches; auto.
  - intros Hd ?; run; rewrite Hd; cbn; branches; auto.
  - cbn; intros Hd -> -> listener Hl; unfold notifiesHostOnce.
    repeat split; intros; run; rewrite ?Hl, ?Hd; cbn; branches; eauto.
Qed.

(** C10 (as amended). An Enter keydown while the popup is visible always has
    its default prevented and the handler returns without calling the host's
    [onKeyDown], without inserting a line break and without changing the
    state.  An Enter keydown on an enabled, mounted field whose popup is
    hidden, and whose propagation is not stopped once the host's listener has
    run, has its default prevented and a line break inserted by
    [execCommand('insertLineBreak')]. *)
Theorem enter_keydown
  (props : EmojiInputProps) (w : World) (event : KeyboardEvent) :
  key (payload event) = js "Enter" ->
  let r := handleKeyDown props event w in
  (isPopupVisible w = true ->
     defaultPrevented (result r) = true /\
     world r = w /\
     trace r = (if isDisabled props
                then [EPreventDefault; EStopPropagation]
                else [EPreventDefault]) /\
     ~ In EOnKeyDown (trace r) /\
     ~ In (EExecCommand insertLineBreak) (trace r)) /\
  (isDisabled props = false ->
   isPopupVisible w = false ->
   propagationStopped (afterHostKeyDown props event) = false ->
   forall editor, editorRef w = Some editor ->
     defaultPrevented (result r) = true /\
     trace r = match onKeyDown props with
               | Some _ => [EOnKeyDown]
               | None => []
               end ++ [EPreventDefault; EExecCommand insertLineBreak] /\
     editorRef (world r) = Some (execCommand insertLineBreak editor)).
Proof.
  intros Hk r; subst r; unfold afterHostKeyDown.
  destruct w as [ed b f p v], event as [[k] dp ps]; cbn in Hk; subst k.
  split.
  - cbn; intros ->; run; destruct (isDisabled props); cbn;
      repeat split; auto; cbn; intuition discriminate.
  - cbn; intros Hd -> Hp editor ->; run; rewrite Hd; cbn.
    destruct (onKeyDown props); cbn in *; rewrite Hp; cbn;
      unfold isDeleteClassKey; cbn; auto.
Qed.



End Properties.

(** ** What escaping achieves *)

Lemma includes_single (c : N) (s : JSString) :
  includes [c] s = existsb (N.eqb c) s.
Proof.
  induction s as [|x s IH]; cbn; [reflexivity|].
  rewrite IH; destruct (c =? x); reflexivity.
Qed.

Lemma existsb_eqb_In (c : N) (s : JSString) :
  existsb (N.eqb c) s = false <-> ~ In c s.
Proof.
  induction s as [|x s IH]; cbn; [tauto|].
  rewrite orb_false_iff, IH, N.eqb_neq; intuition congruence.
Qed.



(** Escaping neither adds nor removes a newline. *)
Lemma escapeHTML_keeps_newlines (text : JSString) :
  includes newline (Codec.escapeHTML text) = includes newline text.
Proof.
  unfold newline; rewrite !includes_single.
  induction text as [|x text IH]; cbn; [reflexivity|].
  destruct (N.eqb_spec x 60) as [->|Hlt];
    [|destruct (N.eqb_spec x 62) as [->|Hgt]]; cbn; rewrite IH; reflexivity.
Qed.







(** ** The handlers on concrete inputs *)

(** C1, as stated, fails on a disabled field: a Backspace about to remove
    the code unit 8203 is prevented and leaves the backward flag unset. *)
Lemma disabled_keydown_leaves_guard_unarmed :
  let event := Reference.keydown "Backspace" in
  let r := handleKeyDown Reference.disabledProps event Reference.atSentinel in
  getCharCodeThatWillBeDeleted event (editorRef Reference.atSentinel)
    = Some sentinelCode /\
  shouldDeleteOneMoreBackwards (world r) = false /\
  shouldDeleteOneMoreForwards (world r) = false /\
  defaultPrevented (result r) = true.
Proof.
  vm_compute; auto.
Qed.

Lemma enabled_keydown_arms_delete_guard_witness :
  isDisabled Reference.enabledProps = false /\
  deletesSentinel Reference.enabledProps (Reference.keydown "Backspace")
    Reference.atSentinel = true /\
  shouldDeleteOneMoreBackwards
    (world (handleKeyDown Reference.enabledProps
              (Reference.keydown "Backspace") Reference.atSentinel)) = true.
Proof.
  split; [reflexivity|]; split; [reflexivity|].
  pose proof (enabled_keydown_arms_delete_guard Reference.enabledProps
                Reference.atSentinel (Reference.keydown "Backspace") eq_refl) as H.
  cbv zeta in H; destruct H as [H _].
  apply H; [left|]; reflexivity.
Defined.

(** C2, as stated, fails while the element is not mounted: the input
    handler returns at once and the pending flag stays set. *)
Lemma unmounted_input_keeps_pending_flag :
  let r := handleInput Reference.enabledProps (newEvent tt)
             Reference.unmountedPending in
  shouldDeleteOneMoreBackwards Reference.unmountedPending = true /\
  shouldDeleteOneMoreBackwards (world r) = true /\
  trace r = [].
Proof.
  vm_compute; auto.
Qed.

Lemma input_consumes_pending_delete_witness :
  editorRef Reference.pendingBackward = Some (js "a" ++ [sentinelCode]) /\
  shouldDeleteOneMoreBackwards Reference.pendingBackward = true /\
  trace (handleInput Reference.enabledProps (newEvent tt)
           Reference.pendingBackward)
  = [EPreventDefault; EStopPropagation; EInsertInvisibleCursorMarker].
Proof.
  split; [reflexivity|]; split; [reflexivity|].
  pose proof (input_consumes_pending_delete Reference.enabledProps
                Reference.pendingBackward (newEvent tt) _ eq_refl) as H.
  cbv zeta in H; destruct H as (_ & H & _).
  apply H; reflexivity.
Defined.

Lemma handleUpdateHTML_replaces_only_on_difference_witness :
  editorRef (Reference.mounted (js "a")) = Some (js "a") /\
  editorRef (world (handleUpdateHTML (js "b") (Reference.mounted (js "a"))))
  = Some (js "b") /\
  plainTextValue
    (world (handleUpdateHTML (js "b") (Reference.mounted (js "a"))))
  = js "a" /\
  trace (handleUpdateHTML (js "b") (Reference.mounted (js "a")))
  = [EConvertEmojisToUnicode (js "b"); EConvertTextToHTML (js "b");
     ESaveSelection true; ESetInnerHTML (js "b"); ERestoreSelection].
Proof.
  split; [reflexivity|].
  pose proof (handleUpdateHTML_replaces_only_on_difference
                (Reference.mounted (js "a")) (js "b") _ eq_refl) as H.
  cbv zeta in H; destruct H as (_ & H).
  destruct (H ltac:(apply (proj1 (streq_neq _ _)); reflexivity))
    as (He & _ & _ & Hp & _ & Ht).
  split; [exact He|]; split; [exact Hp | exact Ht].
Defined.

(** C4, as stated, fails while the element is not mounted: a before-input
    event on a disabled field is handed back with its default action and its
    propagation untouched. *)
Lemma unmounted_disabled_beforeinput_not_suppressed :
  let w := Reference.unmounted Reference.disabledProps in
  let r := handleBeforeInput Reference.disabledProps
             (Reference.textInput (js "a" ++ newline)) w in
  isDisabled Reference.disabledProps = true /\
  defaultPrevented (result r) = false /\
  propagationStopped (result r) = false.
Proof.
  vm_compute; auto.
Qed.

(** Unlike its four siblings, [handleInput] does not return after it has
    suppressed the event of a disabled field: with no delete pending it goes
    on to re-derive the plain text and to call [onInput]. *)
Example disabled_input_is_still_processed :
  trace (handleInput Reference.disabledProps (newEvent tt)
           (Reference.mounted (js "a")))
  = [EStopPropagation; EPreventDefault;
     EConvertEmojisToUnicode (js "a"); EConvertTextToHTML (js "a");
     EConvertHTMLToText (js "a"); ESetPlainTextValue (js "a");
     EOnInput (js "a")].
Proof.
  reflexivity.
Qed.

Lemma disabled_events_are_suppressed_witness :
  isDisabled Reference.disabledProps = true /\
  editorRef (Reference.mounted (js "a")) = Some (js "a") /\
  handlePaste Reference.disabledProps (Reference.paste "b")
    (Reference.mounted (js "a"))
  = (mkEvent {| clipboardText := js "b" |} true true,
     Reference.mounted (js "a"), [EPreventDefault; EStopPropagation]).
Proof.
  split; [reflexivity|]; split; [reflexivity|].
  pose proof (disabled_events_are_suppressed Reference.disabledProps
                (Reference.mounted (js "a")) _ eq_refl eq_refl) as H.
  destruct H as (_ & _ & H & _).
  apply (H (Reference.paste "b")).
Defined.

Lemma disabled_paste_changes_nothing_witness :
  isDisabled Reference.disabledProps = true /\
  world (handlePaste Reference.disabledProps (Reference.paste "b")
           (Reference.mounted (js "a")))
  = Reference.mounted (js "a").
Proof.
  split; [reflexivity|].
  pose proof (disabled_paste_changes_nothing Reference.disabledProps
                (Reference.mounted (js "a")) (Reference.paste "b") eq_refl)
    as H.
  cbv zeta in H; apply H.
Defined.


(** C7, as stated, fails in two ways.  While the element is not mounted the
    imperative insertion dispatches no input event.  And when a Backspace at
    the sentinel was intercepted by the host, so that its delete is still
    pending, the input event of the next insertion is consumed by the delete
    guard and the host's listener is not called. *)
Lemma insertion_without_host_notification :
  (let w := Reference.unmounted Reference.enabledProps in
   count isDispatchInput
     (trace (handleInsertTextAtCursorPosition Reference.enabledProps
               (js "x") w)) = 0%nat) /\
  (let k := handleKeyDown Reference.interceptingProps
              (Reference.keydown "Backspace") Reference.atSentinel in
   let r := handleInsertTextAtCursorPosition Reference.interceptingProps
              (js "x") (world k) in
   defaultPrevented (result k) = true /\
   shouldDeleteOneMoreBackwards (world k) = true /\
   count isContentMutation (trace r) = 2%nat /\
   count isDispatchInput (trace r) = 1%nat /\
   count isHostNotification (trace r) = 0%nat).
Proof.
  vm_compute; auto 10.
Qed.

Lemma one_input_event_per_edit_witness :
  editorRef (Reference.mounted (js "a")) = Some (js "a") /\
  count isDispatchInput
    (trace (handleReplaceText Reference.enabledProps (js "a") (js "b")
              (Reference.mounted (js "a")))) = 1%nat.
Proof.
  split; [reflexivity|].
  pose proof (one_input_event_per_edit Reference.enabledProps
                (Reference.mounted (js "a")) _ eq_refl) as H.
  destruct H as (_ & H & _).
  apply H.
Defined.

Lemma missing_surface_is_noop_witness :
  editorRef (Reference.unmounted Reference.enabledProps) = None /\
  handleInsertTextAtCursorPosition Reference.enabledProps (js "x")
    (Reference.unmounted Reference.enabledProps)
  = (tt, Reference.unmounted Reference.enabledProps, []).
Proof.
  split; [reflexivity|].
  pose proof (missing_surface_is_noop Reference.enabledProps
                (Reference.unmounted Reference.enabledProps) eq_refl) as H.
  destruct H as (_ & H & _).
  apply H.
Defined.


(** C10, as stated, fails on a disabled field: with the popup hidden and
    propagation not stopped, an Enter keydown is swallowed and no line break
    is inserted. *)
Lemma disabled_enter_inserts_no_line_break :
  let w := Reference.mounted (js "a") in
  let r := handleKeyDown Reference.disabledProps (Reference.keydown "Enter")
             w in
  isPopupVisible w = false /\
  propagationStopped (Reference.keydown "Enter") = false /\
  trace r = [EPreventDefault; EStopPropagation] /\
  world r = w.
Proof.
  vm_compute; auto.
Qed.

Lemma enter_keydown_witness :
  key (payload (Reference.keydown "Enter")) = js "Enter" /\
  isDisabled Reference.enabledProps = false /\
  isPopupVisible (Reference.mounted (js "a")) = false /\
  editorRef (world (handleKeyDown Reference.enabledProps
                      (Reference.keydown "Enter")
                      (Reference.mounted (js "a"))))
  = Some (js "a<br>").
Proof.
  split; [reflexivity|]; split; [reflexivity|]; split; [reflexivity|].
  pose proof (enter_keydown Reference.enabledProps
                (Reference.mounted (js "a")) (Reference.keydown "Enter")
                eq_refl) as H.
  cbv zeta in H; destruct H as (_ & H).
  destruct (H eq_refl eq_refl eq_refl (js "a") eq_refl) as (_ & _ & He).
  exact He.
Defined.

(** * Properties of the rest of the component *)

Section MoreProperties.

Context `{PF : Platform}.

Ltac run :=
  unfold valueEffect, prefixInsertEffect, perform,
    handleUpdateHTML, handleInput, handleBeforeInput, handleKeyDown,
    handlePaste, handleDrop, handlePopupSelect, handlePopupVisibility,
    handleInsertTextAtCursorPosition, handleReplaceText, dispatchInputEvent,
    handleInput, handleUpdateHTML, preventDefault, stopPropagation, onEditor,
    bind, ret, tell, get, modify, result, world, trace, count in *;
  cbn in *.

Ltac branches :=
  repeat match goal with
         | |- context [match ?c with _ => _ end] =>
             lazymatch c with
             | context [match _ with _ => _ end] => fail
             | _ => destruct c eqn:?
             end; cbn in *
         end.

(** X1. A drop that carries no text, or the empty text, on an enabled,
    mounted field only has its default action prevented: nothing is
    converted or inserted, no input event is dispatched and the state is
    unchanged. *)
Theorem drop_without_text_only_prevents_default
  (props : EmojiInputProps) (w : World) (event : DragEvent) (editor : Dom) :
  isDisabled props = false ->
  editorRef w = Some editor ->
  truthyOpt (dataTransferText (payload event)) = false ->
  handleDrop props event w
  = (mkEvent (payload event) true (propagationStopped event), w,
     [EPreventDefault]).
Proof.
  intros Hd He Ht.
  destruct w as [ed b f p v]; cbn in He; subst ed.
  destruct event as [[[text|]] dp ps]; cbn in Ht; run; rewrite Hd; cbn;
    [rewrite Ht|]; reflexivity.
Qed.


(** X3. On an enabled, mounted field [handleBeforeInput] lets every event
    through untouched unless it is a [textInput] whose data holds a newline.
    Such an event is suppressed and its emoji-converted data handed to
    [insertTextAtCursorPosition] at the live selection, followed by exactly
    one input event; the handler itself does not escape the data. *)
Theorem beforeInput_intercepts_only_multiline_text
  (props : EmojiInputProps) (w : World) (event : InputEvent) (editor : Dom) :
  isDisabled props = false ->
  editorRef w = Some editor ->
  let r := handleBeforeInput props event w in
  (interceptsBeforeInput event = false -> r = (event, w, [])) /\
  (forall d,
     data (payload event) = Some d ->
     interceptsBeforeInput event = true ->
     result r = mkEvent (payload event) true true /\
     (exists rest,
        trace r = [EPreventDefault; EStopPropagation;
                   EConvertEmojisToUnicode d;
                   EInsertTextAtCursorPosition (convertEmojisToUnicode d)
                     false;
                   EDispatchInput] ++ rest
        /\ count isDispatchInput rest = 0%nat
        /\ count isEscapeHTML rest = 0%nat)).
Proof.
  intros Hd He r; subst r; unfold interceptsBeforeInput.
  destruct w as [ed b f p v]; cbn in He; subst ed.
  destruct event as [[[d0|] ty] dp ps]; cbn; split.
  - intros Hi; run; rewrite Hd; cbn; rewrite Hi; reflexivity.
  - intros d [= ->] Hi; run; rewrite Hd; cbn; rewrite Hi; cbn.
    split; [branches; reflexivity|].
    branches; eexists; repeat split; reflexivity.
  - intros _; run; rewrite Hd; reflexivity.
  - intros d [=].
Qed.

(** X4. The other three ways to change the content tell the host like the
    imperative operations do: on an enabled, mounted field with no delete
    pending and an [onInput] listener, a popup selection, a drop of a
    non-empty text and an intercepted before-input each dispatch one input
    event and call the listener exactly once, with the plain text derived
    from the content then displayed. *)
Theorem popup_drop_beforeInput_notify_host_once
  (props : EmojiInputProps) (w : World) (editor : Dom)
  (listener : JSString -> HostReaction) :
  isDisabled props = false ->
  editorRef w = Some editor ->
  deletePending w = false ->
  onInput props = Some listener ->
  (forall emoji,
     let r := handlePopupSelect props emoji w in
     count isDispatchInput (trace r) = 1%nat /\ notifiesHostOnce r) /\
  (forall event,
     truthyOpt (dataTransferText (payload event)) = true ->
     let r := handleDrop props event w in
     count isDispatchInput (trace r) = 1%nat /\ notifiesHostOnce r) /\
  (forall event,
     interceptsBeforeInput event = true ->
     let r := handleBeforeInput props event w in
     count isDispatchInput (trace r) = 1%nat /\ notifiesHostOnce r).
Proof.
  intros Hd He Hp Hl; unfold deletePending, notifiesHostOnce in *.
  destruct w as [ed b f p v]; cbn in He, Hp; subst ed.
  apply orb_false_iff in Hp as [-> ->].
  split; [|split].
  - intros emoji; cbv zeta; run; rewrite ?Hl; cbn; branches; eauto.
  - intros [[[text|]] dp ps] Ht; cbv zeta; cbn in Ht; [|discriminate].
    run; rewrite Hd, Ht, ?Hl; cbn; branches; eauto.
  - intros [[[d|] ty] dp ps] Hi; cbv zeta; unfold interceptsBeforeInput in Hi;
      cbn in Hi; [|discriminate].
    run; rewrite Hd; cbn; rewrite Hi, ?Hl; cbn; branches; eauto.
Qed.


(** X6. The cycle of the delete guard.  On an enabled, mounted field with
    nothing pending, a delete-class keydown about to remove the sentinel
    leaves a delete pending; the input event that follows makes exactly the
    matching removal without re-deriving the plain text and clears the
    guard; and the input event after that one is handled normally again:
    the plain text is re-derived once and the host's listener, if any, is
    called once. *)
Theorem delete_guard_cycle
  (props : EmojiInputProps) (w : World) (editor : Dom)
  (keydown : KeyboardEvent) (input1 input2 : ChangeEvent) :
  isDisabled props = false ->
  editorRef w = Some editor ->
  deletePending w = false ->
  isDeleteClassKey (key (payload keydown)) = true ->
  deletesSentinel props keydown w = true ->
  let w1 := world (handleKeyDown props keydown w) in
  let r2 := handleInput props input1 w1 in
  let r3 := handleInput props input2 (world r2) in
  deletePending w1 = true /\
  trace r2 = [EPreventDefault; EStopPropagation;
              if streq (key (payload keydown)) (js "Delete")
              then EExecCommand forwardDelete
              else EInsertInvisibleCursorMarker] /\
  deletePending (world r2) = false /\
  plainTextValue (world r2) = plainTextValue w /\
  count isSetPlainTextValue (trace r3) = 1%nat /\
  count isHostNotification (trace r3)
    = (if isSome (onInput props) then 1%nat else 0%nat).
Proof.
  intros Hd He Hp Hk Hs; cbv zeta.
  unfold deletePending, deletesSentinel, afterHostKeyDown, sentinelCode in *.
  destruct w as [ed b f p v]; cbn in He, Hp; subst ed.
  apply orb_false_iff in Hp as [-> ->].
  destruct keydown as [[k] dp ps]; cbn in Hk, Hs.
  apply isDeleteClassKey_cases in Hk.
  destruct Hk as [-> | [-> | ->]];
    destruct (onKeyDown props) eqn:Hl;
    (match type of Hs with
     | context [getCharCodeThatWillBeDeleted ?e ?d] =>
         destruct (getCharCodeThatWillBeDeleted e d) as [c|] eqn:Hc
     end; [apply N.eqb_eq in Hs; subst c | discriminate]);
    run; rewrite ?Hd, ?Hl; cbn; unfold isDeleteClassKey; cbn;
    rewrite Hc; cbn; rewrite ?Hd; cbn;
    repeat split; auto; branches; reflexivity.
Qed.

(** Every handler but [handleKeyDown] leaves a pending flag that is not set
    as it is. *)
Lemma perform_never_arms
  (props : EmojiInputProps) (a : Action) (w : World) :
  isKeyDown a = false ->
  implb (shouldDeleteOneMoreBackwards (world (perform props a w)))
        (shouldDeleteOneMoreBackwards w) = true /\
  implb (shouldDeleteOneMoreForwards (world (perform props a w)))
        (shouldDeleteOneMoreForwards w) = true.
Proof.
  intros Hk.
  destruct w as [ed b f p v].
  destruct a; try discriminate; run; branches;
    split; cbn; auto using implb_same; destruct b, f; reflexivity.
Qed.

Lemma performAll_cons
  (props : EmojiInputProps) (a : Action) (rest : list Action) (w : World) :
  world (performAll props (a :: rest) w)
  = world (performAll props rest (world (perform props a w))).
Proof.
  cbn [performAll]; unfold bind, world.
  destruct (perform props a w) as [[u w1] t1]; cbn.
  destruct (performAll props rest w1) as [[u2 w2] t2]; reflexivity.
Qed.

(** X7. Only [handleKeyDown] arms the delete guard: through any sequence of
    the other handlers and of the [value] effect - input, before-input,
    paste, drop, popup selection and visibility, imperative insertion and
    replacement - a flag that is not set stays unset, so a field with no
    delete pending has none pending at the end. *)
Theorem only_keydown_arms_delete_guard
  (props : EmojiInputProps) (actions : list Action) (w : World) :
  forallb (fun a => negb (isKeyDown a)) actions = true ->
  let w' := world (performAll props actions w) in
  (shouldDeleteOneMoreBackwards w = false ->
   shouldDeleteOneMoreBackwards w' = false) /\
  (shouldDeleteOneMoreForwards w = false ->
   shouldDeleteOneMoreForwards w' = false) /\
  (deletePending w = false -> deletePending w' = false).
Proof.
  cbv zeta; revert w; induction actions as [|a rest IH]; intros w Hall.
  - cbn; auto.
  - cbn [forallb] in Hall; apply andb_true_iff in Hall as [Ha Hrest].
    apply negb_true_iff in Ha.
    destruct (perform_never_arms props a w Ha) as [Hb Hf].
    destruct (IH (world (perform props a w)) Hrest) as (IHb & IHf & _).
    rewrite performAll_cons.
    assert (Hb' : shouldDeleteOneMoreBackwards w = false ->
                  shouldDeleteOneMoreBackwards
                    (world (performAll props rest
                              (world (perform props a w)))) = false).
    { intros H0; apply IHb; rewrite H0 in Hb.
      destruct (shouldDeleteOneMoreBackwards (world (perform props a w)));
        [discriminate | reflexivity]. }
    assert (Hf' : shouldDeleteOneMoreForwards w = false ->
                  shouldDeleteOneMoreForwards
                    (world (performAll props rest
                              (world (perform props a w)))) = false).
    { intros H0; apply IHf; rewrite H0 in Hf.
      destruct (shouldDeleteOneMoreForwards (world (perform props a w)));
        [discriminate | reflexivity]. }
    repeat split; auto.
    unfold deletePending; intros H; apply orb_false_iff in H as [H1 H2].
    now rewrite Hb', Hf'.
Qed.

Lemma perform_frame
  (props : EmojiInputProps) (a : Action) (w : World) :
  isSome (editorRef (world (perform props a w))) = isSome (editorRef w) /\
  (isPopupVisibility a = false ->
   isPopupVisible (world (perform props a w)) = isPopupVisible w).
Proof.
  destruct w as [[ed|] b f p v];
    destruct a; run; branches; split; auto; discriminate.
Qed.

Lemma scheduledPopupVisibility_app (t1 t2 : list Effect) :
  scheduledPopupVisibility t2 = None ->
  scheduledPopupVisibility (t1 ++ t2) = scheduledPopupVisibility t1.
Proof.
  unfold scheduledPopupVisibility; rewrite fold_left_app.
  generalize (fold_left
                (fun scheduled e =>
                   match e with
                   | ESetIsPopupVisible isVisible => Some isVisible
                   | _ => scheduled
                   end) t1 None).
  induction t2 as [|e t2 IH] using rev_ind; intros o H; [reflexivity|].
  rewrite fold_left_app in *; cbn in *.
  destruct e; try discriminate; auto.
Qed.

Lemma perform_schedules_nothing
  (props : EmojiInputProps) (a : Action) (w : World) :
  isPopupVisibility a = false ->
  scheduledPopupVisibility (trace (perform props a w)) = None.
Proof.
  intros Ha; unfold scheduledPopupVisibility.
  destruct w as [[ed|] b f p v];
    destruct a; try discriminate; run; branches; reflexivity.
Qed.

Lemma performAll_cons_trace
  (props : EmojiInputProps) (a : Action) (rest : list Action) (w : World) :
  trace (performAll props (a :: rest) w)
  = trace (perform props a w)
    ++ trace (performAll props rest (world (perform props a w))).
Proof.
  cbn [performAll]; unfold bind, world, trace.
  destruct (perform props a w) as [[u w1] t1]; cbn.
  destruct (performAll props rest w1) as [[u2 w2] t2]; reflexivity.
Qed.

(** X8. No handler mounts or unmounts the element, and only
    [handlePopupVisibility] changes [isPopupVisible]: after any sequence of
    calls the field is mounted exactly if it was before, and a sequence
    without a visibility report leaves [isPopupVisible] as it was and
    schedules no other value for the next render either. *)
Theorem handlers_keep_mounting_and_popup
  (props : EmojiInputProps) (actions : list Action) (w : World) :
  let w' := world (performAll props actions w) in
  isSome (editorRef w') = isSome (editorRef w) /\
  (forallb (fun a => negb (isPopupVisibility a)) actions = true ->
   isPopupVisible w' = isPopupVisible w /\
   scheduledPopupVisibility (trace (performAll props actions w)) = None /\
   isPopupVisible (rerender (trace (performAll props actions w)) w')
   = isPopupVisible w).
Proof.
  cbv zeta; revert w; induction actions as [|a rest IH]; intros w.
  - cbn; auto.
  - rewrite performAll_cons, performAll_cons_trace.
    destruct (perform_frame props a w) as [Hm Hv].
    destruct (IH (world (perform props a w))) as [IHm IHv].
    split; [congruence|].
    cbn [forallb]; intros Hall; apply andb_true_iff in Hall as [Ha Hrest].
    apply negb_true_iff in Ha.
    destruct (IHv Hrest) as (Hvis & Hsched & _).
    assert (Hnone : scheduledPopupVisibility
                      (trace (perform props a w)
                       ++ trace (performAll props rest
                                   (world (perform props a w)))) = None).
    { rewrite scheduledPopupVisibility_app by assumption.
      now apply perform_schedules_nothing. }
    split; [rewrite Hvis; auto|].
    split; [exact Hnone|].
    unfold rerender; rewrite Hnone, Hvis; auto.
Qed.

(** X9. Where assigning [innerHTML] reads back what was assigned and
    restoring the selection leaves the content alone, [handleUpdateHTML] on
    a mounted field ends with the markup of its text displayed, and a second
    call with the same text changes nothing: no selection is saved, nothing
    is replaced. *)
Theorem handleUpdateHTML_settles
  (w : World) (text : JSString) (editor : Dom) :
  (forall html d, innerHTML (setInnerHTML html d) = html) ->
  (forall d, innerHTML (restoreSelection d) = innerHTML d) ->
  editorRef w = Some editor ->
  let r := handleUpdateHTML text w in
  let again := handleUpdateHTML text (world r) in
  displayed (world r) = Some (markupOf text) /\
  world again = world r /\
  count isContentMutation (trace again) = 0%nat /\
  count (fun e => match e with
                  | ESaveSelection _ | ERestoreSelection => true
                  | _ => false
                  end) (trace again) = 0%nat.
Proof.
  intros Hset Hrestore He; cbv zeta; unfold displayed, markupOf.
  destruct w as [ed b f p v]; cbn in He; subst ed.
  run.
  destruct (streq (convertTextToHTML (convertEmojisToUnicode text))
              (innerHTML editor)) eqn:Heq; cbn.
  - rewrite Heq; cbn.
    apply streq_eq in Heq; rewrite Heq; auto.
  - rewrite Hrestore, Hset, streq_refl; cbn; auto.
Qed.

(** X10. The [value] effect brings [plainTextValue] to the [value] prop
    without telling the host: no input event is dispatched and [onInput] is
    not called, and the pending flags are left alone.  It is idempotent:
    once run, a second run does nothing at all; and it does nothing when the
    prop already equals [plainTextValue], whatever the field displays. *)
Theorem valueEffect_follows_prop_silently
  (props : EmojiInputProps) (w : World) :
  let r := valueEffect props w in
  plainTextValue (world r) = value props /\
  count isDispatchInput (trace r) = 0%nat /\
  count isHostNotification (trace r) = 0%nat /\
  shouldDeleteOneMoreBackwards (world r) = shouldDeleteOneMoreBackwards w /\
  shouldDeleteOneMoreForwards (world r) = shouldDeleteOneMoreForwards w /\
  valueEffect props (world r) = (tt, world r, []) /\
  (value props = plainTextValue w -> r = (tt, w, [])).
Proof.
  cbv zeta.
  destruct w as [ed b f p v].
  destruct (streq (value props) p) eqn:Heq.
  - pose proof Heq as Hv; apply streq_eq in Hv.
    run; rewrite !Heq; cbn; rewrite ?Heq; cbn; auto 10.
  - assert (Hne : value props <> p) by now apply streq_neq.
    run; rewrite !Heq; cbn.
    destruct ed as [editor|]; cbn; branches; rewrite ?streq_refl; cbn;
      try (rewrite streq_refl in *; discriminate);
      repeat split; auto; intros; congruence.
Qed.

(** X11. The host's [onKeyDown] listener sees every keydown of an enabled
    field except an Enter while the popup is visible, and exactly once.  It
    can veto the line break: when it stops the propagation of an Enter, or
    when the field is not mounted, the handler neither prevents the default
    action nor inserts a line break, and leaves the state as it is. *)
Theorem host_sees_keydown_and_can_veto_line_break
  (props : EmojiInputProps) (w : World) (event : KeyboardEvent) :
  isDisabled props = false ->
  let r := handleKeyDown props event w in
  let enter := streq (key (payload event)) (js "Enter") in
  (enter && isPopupVisible w = false ->
   count isOnKeyDown (trace r)
     = if isSome (onKeyDown props) then 1%nat else 0%nat) /\
  (enter = true ->
   isPopupVisible w = false ->
   propagationStopped (afterHostKeyDown props event) = true
   \/ editorRef w = None ->
   world r = w /\
   result r = afterHostKeyDown props event /\
   count isPreventDefault (trace r) = 0%nat /\
   count isLineBreak (trace r) = 0%nat).
Proof.
  intros Hd; cbv zeta; unfold afterHostKeyDown.
  destruct w as [ed b f p v], event as [[k] dp ps]; cbn.
  split.
  - intros Hg.
    destruct (streq k (js "Enter")) eqn:HEnter.
    + apply streq_eq in HEnter; subst k; cbn in Hg; subst v.
      run; rewrite Hd; cbn.
      destruct (onKeyDown props); cbn; unfold isDeleteClassKey; cbn;
        branches; reflexivity.
    + run; rewrite Hd; cbn; rewrite ?HEnter; cbn.
      destruct (onKeyDown props); cbn; rewrite ?HEnter; cbn;
        branches; reflexivity.
  - intros HEnter -> Hveto.
    apply streq_eq in HEnter; subst k.
    run; rewrite Hd; cbn.
    destruct (onKeyDown props); cbn in *;
      destruct Hveto as [Hp | ->]; rewrite ?Hp, ?andb_false_r; cbn;
      unfold isDeleteClassKey; cbn; auto.
Qed.

(** X12. The placeholder is shown exactly when the prefix animation has
    finished, the field is blank (no plain text, or just the prefix
    displayed), it is not both hidden on focus and focused, and - where
    there is a prefix - the plain text is empty or a positive prefix width
    has been measured.  So it is never shown over text that is more than the
    prefix, and without a prefix it only depends on emptiness and focus. *)
Theorem shouldShowPlaceholder_exactly
  (vp : EmojiInputViewProps) (w : World) (v : ViewState) :
  shouldShowPlaceholder vp w v
  = isPrefixAnimationFinished v
    && (negb (truthy (plainTextValue w)) || isJustPrefixElement vp w)
    && negb (shouldHidePlaceholderOnFocus vp && hasFocus v)
    && (negb (truthyOpt (prefixElement vp))
        || negb (truthy (plainTextValue w))
        || positiveWidth (prefixElementWidth v)) /\
  (truthy (plainTextValue w) = true ->
   isJustPrefixElement vp w = false ->
   shouldShowPlaceholder vp w v = false) /\
  (prefixElement vp = None ->
   shouldShowPlaceholder vp w v
   = isPrefixAnimationFinished v
     && negb (truthy (plainTextValue w))
     && negb (shouldHidePlaceholderOnFocus vp && hasFocus v)).
Proof.
  unfold shouldShowPlaceholder.
  split; [|split].
  - destruct (isPrefixAnimationFinished v), (truthy (plainTextValue w)),
      (isJustPrefixElement vp w), (shouldHidePlaceholderOnFocus vp),
      (hasFocus v), (truthyOpt (prefixElement vp)),
      (positiveWidth (prefixElementWidth v)); reflexivity.
  - intros -> ->.
    destruct (isPrefixAnimationFinished v), (shouldHidePlaceholderOnFocus vp),
      (hasFocus v); reflexivity.
  - intros Hn; unfold isJustPrefixElement; rewrite Hn; cbn.
    destruct (isPrefixAnimationFinished v), (truthy (plainTextValue w)),
      (shouldHidePlaceholderOnFocus vp), (hasFocus v); reflexivity.
Qed.

(** X13. The host is told at most once that a rendered prefix was removed.
    A call of [onPrefixElementRemove] happens only with the prefix rendered,
    gone from the field and not just changed, and it clears
    [hasPrefixRendered], after which the effect does nothing however often
    it runs.  The first run after a change of the prefix never calls the
    host: it consumes [hasPrefixChanged], and the run after it does the
    call. *)
Theorem prefix_removal_is_reported_once
  (vp : EmojiInputViewProps) (w : World) (v : ViewState) :
  let r := prefixRemovalEffect vp w v in
  (snd r = [COnPrefixElementRemove] ->
   onPrefixElementRemove vp = true /\
   hasPrefixRendered v = true /\
   prefixStillThere vp w = false /\
   hasPrefixChanged v = false /\
   hasPrefixRendered (fst r) = false /\
   forall vp' w', prefixRemovalEffect vp' w' (fst r) = (fst r, [])) /\
  (hasPrefixChanged v = true ->
   snd r = [] /\
   (onPrefixElementRemove vp = true ->
    hasPrefixRendered v = true ->
    prefixStillThere vp w = false ->
    snd (prefixRemovalEffect vp w (fst r)) = [COnPrefixElementRemove])).
Proof.
  cbv zeta; unfold prefixRemovalEffect.
  destruct v as [hf fin wd rendered changed]; cbn.
  split.
  - destruct (onPrefixElementRemove vp), rendered, (prefixStillThere vp w),
      changed; cbn; try discriminate.
    intros _; repeat split; auto.
    intros vp' w'; destruct (onPrefixElementRemove vp'); reflexivity.
  - intros ->; split.
    + destruct (onPrefixElementRemove vp), rendered, (prefixStillThere vp w);
        reflexivity.
    + intros Hl Hr Hs; subst rendered; rewrite Hl, Hs; reflexivity.
Qed.

Lemma startsWith_app (p b : JSString) : startsWith p (p ++ b) = true.
Proof.
  induction p as [|x p IH]; cbn; [reflexivity|].
  now rewrite N.eqb_refl, IH.
Qed.

Lemma includes_app (a p b : JSString) : includes p (a ++ p ++ b) = true.
Proof.
  induction a as [|x a IH]; cbn [app].
  - destruct (p ++ b) eqn:E; cbn; rewrite <- ?E, startsWith_app; reflexivity.
  - cbn [includes]; rewrite IH; apply orb_true_r.
Qed.

(** X14. The prefix effect looks for the prefix anywhere in the text, not
    only at its start: while the text of the field holds the non-empty
    prefix - alone, or with anything before or after it - the host is not
    told of a removal and the refs are left as they are. *)
Theorem prefix_found_anywhere_is_not_removed
  (vp : EmojiInputViewProps) (w : World) (v : ViewState)
  (before prefix after : JSString) :
  convertedPrefix vp = Some prefix ->
  truthy prefix = true ->
  convertedText w = before ++ prefix ++ after ->
  prefixStillThere vp w = true /\
  prefixRemovalEffect vp w v = (v, []).
Proof.
  intros Hp Ht Hw.
  assert (Hs : prefixStillThere vp w = true).
  { unfold prefixStillThere; rewrite Hp, Hw, Ht, includes_app.
    rewrite !andb_true_l.
    destruct (Nat.ltb_spec (List.length prefix)
                (List.length (before ++ prefix ++ after))) as [|Hle];
      [reflexivity|].
    rewrite !length_app in Hle.
    assert (before = [])
      by (destruct before; cbn [List.length] in *; [reflexivity | lia]).
    assert (after = [])
      by (destruct after; cbn [List.length] in *; [reflexivity | lia]).
    subst; cbn [app orb]; rewrite app_nil_r; apply streq_refl. }
  split; [exact Hs|].
  unfold prefixRemovalEffect; rewrite Hs.
  destruct (onPrefixElementRemove vp), (hasPrefixRendered v); reflexivity.
Qed.

(** X15. Focus is tracked on a disabled field too, but the host's [onFocus]
    and [onBlur] are only called on an enabled one.  With
    [shouldHidePlaceholderOnFocus] the placeholder is never shown once the
    field got the focus; without it, getting or losing the focus does not
    change whether the placeholder is shown. *)
Theorem focus_is_tracked_and_hides_placeholder
  (props : EmojiInputProps) (vp : EmojiInputViewProps)
  (w : World) (v : ViewState) :
  let focused := handleFocus props vp v in
  let blurred := handleBlur props vp (fst focused) in
  hasFocus (fst focused) = true /\
  hasFocus (fst blurred) = false /\
  (isDisabled props = true -> snd focused = [] /\ snd blurred = []) /\
  (isDisabled props = false ->
   snd focused = (if onFocus vp then [COnFocus] else []) /\
   snd blurred = (if onBlur vp then [COnBlur] else [])) /\
  (shouldHidePlaceholderOnFocus vp = true ->
   shouldShowPlaceholder vp w (fst focused) = false) /\
  (shouldHidePlaceholderOnFocus vp = false ->
   shouldShowPlaceholder vp w (fst focused) = shouldShowPlaceholder vp w v /\
   shouldShowPlaceholder vp w (fst blurred) = shouldShowPlaceholder vp w v).
Proof.
  cbv zeta; unfold handleFocus, handleBlur, shouldShowPlaceholder; cbn.
  split; [reflexivity|]; split; [reflexivity|].
  split; [intros ->; rewrite !andb_false_r; split; reflexivity|].
  split; [intros ->; rewrite !andb_true_r; split; reflexivity|].
  split.
  - intros ->.
    destruct (isPrefixAnimationFinished v), (truthy (plainTextValue w)),
      (isJustPrefixElement vp w); reflexivity.
  - intros ->; split;
      destruct (isPrefixAnimationFinished v), (truthy (plainTextValue w)),
        (isJustPrefixElement vp w), (hasFocus v); reflexivity.
Qed.

(** X16. A mousedown is suppressed exactly when the class
    [prevent-lose-focus] sits on the target, on its parent or on its
    grandparent: the class on any ancestor further up protects nothing, and
    an event that is not suppressed is handed back as it came. *)
Theorem preventLoseFocus_looks_two_levels_up (event : Event Element) :
  let marked :=
    existsb (contains (js "prevent-lose-focus"))
      (firstn 3 (ancestors (payload event))) in
  handlePreventLoseFocus event
  = if marked then mkEvent (payload event) true true else event.
Proof.
  cbv zeta; unfold handlePreventLoseFocus.
  destruct event as [[c [[c1 [[c2 p2]|]]|]] dp ps]; cbn [payload];
    cbn [ancestors firstn existsb parentElement];
    rewrite ?orb_false_r, ?orb_assoc; reflexivity.
Qed.


(** X18. On a mounted field the browser's own paste and drop never happen:
    both handlers prevent the default action whatever the props and the
    payload.  On a field that is not mounted both return at once and the
    event keeps its default action. *)
Theorem paste_and_drop_replace_native_insertion
  (props : EmojiInputProps) (w : World)
  (pasteEvent : ClipboardEvent) (dropEvent : DragEvent) :
  (isSome (editorRef w) = true ->
   defaultPrevented (result (handlePaste props pasteEvent w)) = true /\
   defaultPrevented (result (handleDrop props dropEvent w)) = true) /\
  (editorRef w = None ->
   handlePaste props pasteEvent w = (pasteEvent, w, []) /\
   handleDrop props dropEvent w = (dropEvent, w, [])).
Proof.
  destruct w as [[ed|] b f p v]; cbn; split; try discriminate.
  - intros _; split; run; branches; reflexivity.
  - intros _; split; reflexivity.
Qed.

End MoreProperties.

(** ** The rest of the component on concrete inputs *)

Lemma drop_without_text_only_prevents_default_witness :
  isDisabled Reference.enabledProps = false /\
  truthyOpt (dataTransferText (payload (Fixtures.drop (Some [])))) = false /\
  handleDrop Reference.enabledProps (Fixtures.drop (Some []))
    (Reference.mounted (js "a"))
  = (mkEvent {| dataTransferText := Some [] |} true false,
     Reference.mounted (js "a"), [EPreventDefault]).
Proof.
  split; [reflexivity|]; split; [reflexivity|].
  exact (drop_without_text_only_prevents_default Reference.enabledProps
           (Reference.mounted (js "a")) (Fixtures.drop (Some [])) _
           eq_refl eq_refl eq_refl).
Defined.


Lemma beforeInput_intercepts_only_multiline_text_witness :
  isDisabled Reference.enabledProps = false /\
  interceptsBeforeInput (Reference.textInput (js "a")) = false /\
  handleBeforeInput Reference.enabledProps (Reference.textInput (js "a"))
    (Reference.mounted [])
  = (Reference.textInput (js "a"), Reference.mounted [], []).
Proof.
  split; [reflexivity|]; split; [reflexivity|].
  pose proof (beforeInput_intercepts_only_multiline_text
                Reference.enabledProps (Reference.mounted [])
                (Reference.textInput (js "a")) _ eq_refl eq_refl) as H.
  cbv zeta in H; destruct H as (H & _).
  exact (H eq_refl).
Defined.

Lemma popup_drop_beforeInput_notify_host_once_witness :
  isDisabled Reference.enabledProps = false /\
  deletePending (Reference.mounted (js "a")) = false /\
  count isDispatchInput
    (trace (handlePopupSelect Reference.enabledProps (js "x")
              (Reference.mounted (js "a")))) = 1%nat.
Proof.
  split; [reflexivity|]; split; [reflexivity|].
  pose proof (popup_drop_beforeInput_notify_host_once Reference.enabledProps
                (Reference.mounted (js "a")) _ _
                eq_refl eq_refl eq_refl eq_refl) as H.
  destruct H as (H & _).
  exact (proj1 (H (js "x"))).
Defined.


Lemma delete_guard_cycle_witness :
  isDisabled Reference.enabledProps = false /\
  deletePending Reference.atSentinel = false /\
  isDeleteClassKey (key (payload (Reference.keydown "Backspace"))) = true /\
  deletesSentinel Reference.enabledProps (Reference.keydown "Backspace")
    Reference.atSentinel = true /\
  deletePending
    (world (handleInput Reference.enabledProps (newEvent tt)
              (world (handleKeyDown Reference.enabledProps
                        (Reference.keydown "Backspace")
                        Reference.atSentinel)))) = false.
Proof.
  split; [reflexivity|]; split; [reflexivity|]; split; [reflexivity|].
  split; [reflexivity|].
  pose proof (delete_guard_cycle Reference.enabledProps Reference.atSentinel
                _ (Reference.keydown "Backspace") (newEvent tt) (newEvent tt)
                eq_refl eq_refl eq_refl eq_refl eq_refl) as H.
  cbv zeta in H; destruct H as (_ & _ & H & _).
  exact H.
Defined.

Lemma only_keydown_arms_delete_guard_witness :
  let actions := [APaste (Reference.paste "a"); AInput (newEvent tt);
                  APopupSelect (js "x"); AValueEffect] in
  forallb (fun a => negb (isKeyDown a)) actions = true /\
  deletePending (Reference.mounted []) = false /\
  deletePending
    (world (performAll Reference.enabledProps actions
              (Reference.mounted []))) = false.
Proof.
  cbv zeta; split; [reflexivity|]; split; [reflexivity|].
  pose proof (only_keydown_arms_delete_guard Reference.enabledProps
                [APaste (Reference.paste "a"); AInput (newEvent tt);
                 APopupSelect (js "x"); AValueEffect]
                (Reference.mounted []) eq_refl) as H.
  cbv zeta in H; destruct H as (_ & _ & H).
  exact (H eq_refl).
Defined.

Lemma handlers_keep_mounting_and_popup_witness :
  let actions := [AKeyDown (Reference.keydown "Enter");
                  ADrop (Fixtures.drop (Some (js "a")))] in
  forallb (fun a => negb (isPopupVisibility a)) actions = true /\
  isPopupVisible
    (world (performAll Reference.enabledProps actions
              (Reference.mounted []))) = false.
Proof.
  cbv zeta; split; [reflexivity|].
  pose proof (handlers_keep_mounting_and_popup Reference.enabledProps
                [AKeyDown (Reference.keydown "Enter");
                 ADrop (Fixtures.drop (Some (js "a")))]
                (Reference.mounted [])) as H.
  cbv zeta in H; destruct H as (_ & H).
  exact (proj1 (H eq_refl)).
Defined.

Lemma handleUpdateHTML_settles_witness :
  (forall html d,
     innerHTML (Platform := Reference.platform) (setInnerHTML html d) = html)
  /\
  (forall d,
     innerHTML (Platform := Reference.platform) (restoreSelection d)
     = innerHTML d) /\
  displayed (world (handleUpdateHTML (js "b") (Reference.mounted (js "a"))))
  = Some (js "b").
Proof.
  split; [reflexivity|]; split; [reflexivity|].
  pose proof (handleUpdateHTML_settles (Reference.mounted (js "a")) (js "b") _
                (fun _ _ => eq_refl) (fun _ => eq_refl) eq_refl) as H.
  cbv zeta in H; destruct H as (H & _).
  exact H.
Defined.

Lemma valueEffect_follows_prop_silently_witness :
  value Reference.enabledProps = plainTextValue (Reference.mounted []) /\
  valueEffect Reference.enabledProps (Reference.mounted [])
  = (tt, Reference.mounted [], []).
Proof.
  split; [reflexivity|].
  pose proof (valueEffect_follows_prop_silently Reference.enabledProps
                (Reference.mounted [])) as H.
  cbv zeta in H; destruct H as (_ & _ & _ & _ & _ & _ & H).
  exact (H eq_refl).
Defined.

Lemma host_sees_keydown_and_can_veto_line_break_witness :
  isDisabled Reference.enabledProps = false /\
  editorRef (Reference.unmounted Reference.enabledProps) = None /\
  count isPreventDefault
    (trace (handleKeyDown Reference.enabledProps (Reference.keydown "Enter")
              (Reference.unmounted Reference.enabledProps))) = 0%nat.
Proof.
  split; [reflexivity|]; split; [reflexivity|].
  pose proof (host_sees_keydown_and_can_veto_line_break
                Reference.enabledProps
                (Reference.unmounted Reference.enabledProps)
                (Reference.keydown "Enter") eq_refl) as H.
  cbv zeta in H; destruct H as (_ & H).
  destruct (H eq_refl eq_refl (or_intror eq_refl)) as (_ & _ & Hp & _).
  exact Hp.
Defined.

Lemma shouldShowPlaceholder_exactly_witness :
  truthy (plainTextValue (Reference.mounted (js "a"))) = true /\
  isJustPrefixElement Fixtures.viewProps (Reference.mounted (js "a")) = false
  /\
  shouldShowPlaceholder Fixtures.viewProps (Reference.mounted (js "a"))
    Fixtures.prefixRendered = false.
Proof.
  split; [reflexivity|]; split; [reflexivity|].
  destruct (shouldShowPlaceholder_exactly Fixtures.viewProps
              (Reference.mounted (js "a")) Fixtures.prefixRendered)
    as (_ & H & _).
  exact (H eq_refl eq_refl).
Defined.

Lemma prefix_removal_is_reported_once_witness :
  snd (prefixRemovalEffect Fixtures.viewProps (Reference.mounted (js "a"))
         Fixtures.prefixRendered) = [COnPrefixElementRemove] /\
  prefixRemovalEffect Fixtures.viewProps (Reference.mounted (js "a"))
    (fst (prefixRemovalEffect Fixtures.viewProps (Reference.mounted (js "a"))
            Fixtures.prefixRendered))
  = (fst (prefixRemovalEffect Fixtures.viewProps
            (Reference.mounted (js "a")) Fixtures.prefixRendered), []).
Proof.
  split; [reflexivity|].
  pose proof (prefix_removal_is_reported_once Fixtures.viewProps
                (Reference.mounted (js "a")) Fixtures.prefixRendered) as H.
  cbv zeta in H; destruct H as (H & _).
  destruct (H eq_refl) as (_ & _ & _ & _ & _ & Hagain).
  exact (Hagain Fixtures.viewProps (Reference.mounted (js "a"))).
Defined.

Lemma prefix_found_anywhere_is_not_removed_witness :
  convertedPrefix Fixtures.viewProps = Some (js "@bob ") /\
  truthy (js "@bob ") = true /\
  convertedText (Reference.mounted (js "hi @bob x"))
  = js "hi " ++ js "@bob " ++ js "x" /\
  prefixRemovalEffect Fixtures.viewProps (Reference.mounted (js "hi @bob x"))
    Fixtures.prefixRendered
  = (Fixtures.prefixRendered, []).
Proof.
  split; [reflexivity|]; split; [reflexivity|]; split; [reflexivity|].
  exact (proj2 (prefix_found_anywhere_is_not_removed Fixtures.viewProps
                  (Reference.mounted (js "hi @bob x")) Fixtures.prefixRendered
                  (js "hi ") (js "@bob ") (js "x")
                  eq_refl eq_refl eq_refl)).
Defined.

Lemma focus_is_tracked_and_hides_placeholder_witness :
  isDisabled Reference.disabledProps = true /\
  snd (handleFocus Reference.disabledProps Fixtures.viewProps
         Fixtures.prefixRendered) = [] /\
  hasFocus (fst (handleFocus Reference.disabledProps Fixtures.viewProps
                   Fixtures.prefixRendered)) = true.
Proof.
  split; [reflexivity|].
  pose proof (focus_is_tracked_and_hides_placeholder Reference.disabledProps
                Fixtures.viewProps (Reference.mounted [])
                Fixtures.prefixRendered) as H.
  cbv zeta in H; destruct H as (Hf & _ & H & _).
  split; [exact (proj1 (H eq_refl)) | exact Hf].
Defined.


Lemma paste_and_drop_replace_native_insertion_witness :
  isSome (editorRef (Reference.mounted [])) = true /\
  defaultPrevented
    (result (handleDrop Reference.enabledProps (Fixtures.drop None)
               (Reference.mounted []))) = true.
Proof.
  split; [reflexivity|].
  destruct (paste_and_drop_replace_native_insertion Reference.enabledProps
              (Reference.mounted []) (Reference.paste "a")
              (Fixtures.drop None)) as (H & _).
  exact (proj2 (H eq_refl)).
Defined.
